(** * pymarketstore: the client's request and payload builders

    A shallow embedding of [pymarketstore/client.py]: the query
    parameters ([Params]), the request builder ([Client._build_query]),
    the write payload encoder ([Client._build_data]), [Client.write] and
    the stream endpoint derivation of [Client.stream], followed by the
    properties the specification states about them.

    Python objects are dynamically typed, so attribute values and wire
    values live in one small universe [pyval]; exceptions are explicit
    ([result]); what the file takes from the interpreter and from pandas
    without defining it is a parameter ([Runtime]). *)

From Stdlib Require Import ZArith Lia Bool Ascii String Strings.Byte.
From stdpp Require Import base gmap strings list fin_maps.

Local Open Scope Z_scope.

(** ** Python values and exceptions *)

Module Py.

(** The values the client stores in attributes and puts on the wire.
    [PList] stands for a list or tuple of strings (an ordered
    collection); [PSet] is a set of strings, given by its elements in
    the order in which the interpreter iterates over it;
    [PTimestamp] is a [pandas.Timestamp], identified with the instant
    it denotes, in nanoseconds since the epoch. *)
Inductive pyval : Type :=
  | PNone
  | PBool (b : bool)
  | PInt (z : Z)
  | PStr (s : string)
  | PList (l : list string)
  | PSet (l : list string)
  | PTimestamp (ns : Z).

(** Exception classes: the builtins the client can meet, pandas's
    out-of-range error, and the part of [requests.exceptions] that the
    client names or that derives from what it names. *)
Inductive exn_class : Type :=
  | AttributeError
  | TypeError
  | ValueError
  | KeyError
  | OverflowError
  | OutOfBoundsDatetime
  | HTTPError
  | ConnectionError
  | ProxyError
  | SSLError
  | ConnectTimeout
  | ReadTimeout.

Record exn : Type := Exn { exn_cls : exn_class; exn_msg : string }.

(** [issubclass(c, requests.exceptions.ConnectionError)]. *)
Definition is_ConnectionError (c : exn_class) : bool :=
  match c with
  | ConnectionError | ProxyError | SSLError | ConnectTimeout => true
  | _ => false
  end.

Inductive result (A : Type) : Type :=
  | Ok (a : A)
  | Raise (e : exn).
Arguments Ok {A} a.
Arguments Raise {A} e.

(** Sequencing stops at the first exception. *)
Global Instance result_ret : MRet result := fun A a => Ok a.
Global Instance result_bind : MBind result := fun A B k m =>
  match m with
  | Ok a => k a
  | Raise e => Raise e
  end.
Global Instance result_fmap : FMap result := fun A B f m =>
  match m with
  | Ok a => Ok (f a)
  | Raise e => Raise e
  end.

Definition raise {A} (c : exn_class) : result A := Raise (Exn c "").

(** [value is None] *)
Definition is_None (v : pyval) : bool :=
  match v with PNone => true | _ => false end.

(** [isinstance(value, (int, np.integer))]; [bool] is a subclass of
    [int]. *)
Definition isinstance_int (v : pyval) : bool :=
  match v with PInt _ | PBool _ => true | _ => false end.

(** [isinstance(something, (list, tuple, set))] *)
Definition isiterable (something : pyval) : bool :=
  match something with PList _ | PSet _ => true | _ => false end.

(** Truth value, [bool(v)]. *)
Definition py_bool (v : pyval) : bool :=
  match v with
  | PNone => false
  | PBool b => b
  | PInt z => negb (z =? 0)
  | PStr s => negb (String.eqb s "")
  | PList l | PSet l => match l with [] => false | _ => true end
  | PTimestamp _ => true
  end.

(** [sep.join(l)] *)
Fixpoint join (sep : string) (l : list string) : string :=
  match l with
  | [] => ""
  | [s] => s
  | s :: rest => s +:+ sep +:+ join sep rest
  end.

(** [s.replace(old, new)] for a one-character [old]. *)
Fixpoint replace (old : ascii) (new : string) (s : string) : string :=
  match s with
  | EmptyString => EmptyString
  | String c s' =>
      if Ascii.eqb c old then new +:+ replace old new s'
      else String c (replace old new s')
  end.

End Py.
Export Py.

(** ** Integer division as the interpreter does it

    The client computes [int(value / (10 ** 9))] on integers.  Under
    Python 2 [/] is floor division.  Under Python 3 it is true division:
    the result is the binary64 number nearest to the exact quotient
    (ties to even), and [int] then truncates it toward zero. *)

Module Division.

(** A finite binary64 number, [mant * 2 ^ expo]. *)
Record float : Type := Float { mant : Z; expo : Z }.

Inductive number : Type :=
  | NInt (z : Z)
  | NFloat (f : float).

(** The nearest integer to [p / q] for [0 <= p], [0 < q], ties to
    even. *)
Definition round_half_even (p q : Z) : Z :=
  let k := p / q in
  let r := p mod q in
  if 2 * r <? q then k
  else if q <? 2 * r then k + 1
  else if Z.even k then k else k + 1.

(** The exponent [e] with [2^52 <= (a / b) / 2^e < 2^53], for [0 < a],
    [0 < b]. *)
Definition quotient_exponent (a b : Z) : Z :=
  let d := Z.log2 a - Z.log2 b - 52 in
  (* a / b lies between 2^(d+51) and 2^(d+53) *)
  if a * 2 ^ Z.max 0 (- (d + 52)) <? b * 2 ^ Z.max 0 (d + 52)
  then d - 1 else d.

(** [a / b] under Python 3 for integers [0 <= a], [0 < b]; the operands
    the client divides are int64 nanoseconds and [10 ** 9], far from
    binary64's overflow and subnormal ranges. *)
Definition truediv_pos (a b : Z) : float :=
  if a =? 0 then Float 0 0
  else
    let e := quotient_exponent a b in
    (* the mantissa is the integer nearest to (a / b) / 2^e *)
    Float (round_half_even (a * 2 ^ Z.max 0 (- e)) (b * 2 ^ Z.max 0 e)) e.

Definition truediv (a b : Z) : float :=
  if 0 <=? a then truediv_pos a b
  else let f := truediv_pos (- a) b in Float (- mant f) (expo f).

(** [int(f)]: truncation toward zero. *)
Definition int_of_float (f : float) : Z :=
  if 0 <=? expo f then mant f * 2 ^ expo f
  else Z.quot (mant f) (2 ^ (- expo f)).

(** [a / b] for integers, [0 < b]. *)
Definition div (PY2 : bool) (a b : Z) : number :=
  if PY2 then NInt (a / b) else NFloat (truediv a b).

(** [int(x)] for a number. *)
Definition int (x : number) : Z :=
  match x with
  | NInt z => z
  | NFloat f => int_of_float f
  end.

End Division.

(** ** Regular-expression substitutions with a literal, anchored pattern *)

Module Re.

(** [Some rest] when [s = p ++ rest]. *)
Fixpoint strip_prefix (p s : string) : option string :=
  match p, s with
  | EmptyString, _ => Some s
  | String a p', String b s' =>
      if Ascii.eqb a b then strip_prefix p' s' else None
  | String _ _, EmptyString => None
  end.

(** [re.sub('^' + lit, repl, s)]: [^] matches at the start of the string
    only (no MULTILINE flag), so at most one match is replaced. *)
Definition sub_start (lit repl s : string) : string :=
  match strip_prefix lit s with
  | Some rest => repl +:+ rest
  | None => s
  end.

Definition newline : string := String "010"%char "".

(** [re.sub(lit + '$', repl, s)] for a non-empty [lit] without a
    newline: the search goes left to right for a position where [lit]
    is followed by what [$] accepts, the end of the string or a newline
    that ends the string. *)
Fixpoint sub_end (lit repl s : string) : string :=
  if String.eqb s lit then repl
  else if String.eqb s (lit +:+ newline) then repl +:+ newline
  else match s with
       | EmptyString => EmptyString
       | String c s' => String c (sub_end lit repl s')
       end.

End Re.

(** ** Timestamps and query parameters *)

(** One query's parameters: the attributes [Params.__init__] assigns,
    and [attrs] for any other attribute later stored on the instance.
    [start] and [end] only ever hold what [get_timestamp] returns:
    [None], or a timestamp, kept as the instant it denotes in
    nanoseconds since the epoch. *)
Record Params : Type := mkParams {
  tbk : pyval;
  key_category : pyval;
  start : option Z;
  end_ : option Z;
  limit : pyval;
  limit_from_start : pyval;
  functions : pyval;
  attrs : gmap string pyval
}.

(** What the client uses without defining: the interpreter's version
    ([six.PY2]), [int] on strings, pandas's [Timestamp] constructor on
    the inputs this file does not compute (date strings and the like),
    and the attributes every object inherits from [object]. *)
Class Runtime : Type := {
  PY2 : bool;
  int_of_str : string -> result Z;
  pd_Timestamp : pyval -> option string -> result Z;
  object_hasattr : string -> bool;
  object_setattr : Params -> string -> pyval -> result Params
}.

Section WithRuntime.
Context `{!Runtime}.

(** [int(v)] *)
Definition py_int (v : pyval) : result Z :=
  match v with
  | PBool b => Ok (if b then 1 else 0)
  | PInt z => Ok z
  | PStr s => int_of_str s
  | PNone | PList _ | PSet _ | PTimestamp _ => raise TypeError
  end.

(** The range of int64, in which [Timestamp.value] lies. *)
Definition int64_min : Z := - 2 ^ 63.
Definition int64_max : Z := 2 ^ 63 - 1.

(** [pd.Timestamp(value, unit=unit)].  An integer with [unit='s'] whose
    nanoseconds fit int64 is that many whole seconds after the epoch,
    and a [Timestamp] is returned as it is.  What pandas does with the
    other inputs, an integer beyond that range among them (it raises,
    or returns a timestamp in a coarser unit, depending on its
    version), is left to [pd_Timestamp]. *)
Definition Timestamp (value : pyval) (unit : option string) : result Z :=
  match value, unit with
  | PInt n, Some u =>
      if String.eqb u "s"
         && (int64_min <=? n * 10 ^ 9) && (n * 10 ^ 9 <=? int64_max)
      then Ok (n * 10 ^ 9)
      else pd_Timestamp value unit
  | PTimestamp ns, None => Ok ns
  | _, _ => pd_Timestamp value unit
  end.

(** [timestamp.value]: the nanoseconds as an int64; a timestamp in a
    coarser unit that lies outside that range has none. *)
Definition Timestamp_value (timestamp : Z) : result Z :=
  if (int64_min <=? timestamp) && (timestamp <=? int64_max)
  then Ok timestamp
  else raise OverflowError.

Definition get_timestamp (value : pyval) : result (option Z) :=
  if is_None value then Ok None
  else if isinstance_int value then Some <$> Timestamp value (Some "s")
  else Some <$> Timestamp value None.

End WithRuntime.

Module Params.
Section WithRuntime.
Context `{!Runtime}.

(** [','.join(symbols)]: every element must be a string. *)
Definition join_symbols (symbols : list pyval) : result string :=
  strs ← mapM (fun v => match v with
                        | PStr s => Ok s
                        | _ => raise TypeError
                        end) symbols;
  Ok (join "," strs).

(** The elements of a list, tuple or set, as iterated. *)
Definition elements (v : pyval) : list pyval :=
  match v with
  | PList l | PSet l => PStr <$> l
  | _ => []
  end.

Definition __init__ (symbols : pyval) (timeframe attrgroup : string)
    (start end_ limit limit_from_start : pyval) : result Params :=
  let symbols := if negb (isiterable symbols) then [symbols]
                 else elements symbols in
  joined ← join_symbols symbols;
  let tbk := PStr (joined +:+ "/" +:+ timeframe +:+ "/" +:+ attrgroup) in
  start ← get_timestamp start;
  end_ ← get_timestamp end_;
  Ok (mkParams tbk PNone start end_ limit limit_from_start PNone ∅).

(** The attributes [__init__] assigns, and the names the class body
    defines. *)
Definition instance_attrs : list string :=
  ["tbk"; "key_category"; "start"; "end"; "limit"; "limit_from_start";
   "functions"].
Definition class_attrs : list string := ["__init__"; "set"; "__repr__"].

Definition hasattr (self : Params) (key : string) : bool :=
  bool_decide (key ∈ instance_attrs)
  || bool_decide (is_Some (attrs self !! key))
  || bool_decide (key ∈ class_attrs)
  || object_hasattr key.

(** [setattr(self, key, val)] for [key] in [('start', 'end')], where
    [val] is what [get_timestamp] returned. *)
Definition setattr_time (self : Params) (key : string) (val : option Z)
    : Params :=
  if String.eqb key "start" then
    mkParams (tbk self) (key_category self) val (end_ self) (limit self)
      (limit_from_start self) (functions self) (attrs self)
  else
    mkParams (tbk self) (key_category self) (start self) val (limit self)
      (limit_from_start self) (functions self) (attrs self).

(** [setattr(self, key, val)] for the other names: an attribute of the
    instance is rebound; a name of the class body is shadowed by a new
    instance attribute; a name inherited from [object] is left to the
    interpreter. *)
Definition setattr (self : Params) (key : string) (val : pyval)
    : result Params :=
  if String.eqb key "tbk" then
    Ok (mkParams val (key_category self) (start self) (end_ self)
          (limit self) (limit_from_start self) (functions self) (attrs self))
  else if String.eqb key "key_category" then
    Ok (mkParams (tbk self) val (start self) (end_ self)
          (limit self) (limit_from_start self) (functions self) (attrs self))
  else if String.eqb key "limit" then
    Ok (mkParams (tbk self) (key_category self) (start self) (end_ self)
          val (limit_from_start self) (functions self) (attrs self))
  else if String.eqb key "limit_from_start" then
    Ok (mkParams (tbk self) (key_category self) (start self) (end_ self)
          (limit self) val (functions self) (attrs self))
  else if String.eqb key "functions" then
    Ok (mkParams (tbk self) (key_category self) (start self) (end_ self)
          (limit self) (limit_from_start self) val (attrs self))
  else if bool_decide (is_Some (attrs self !! key))
          || bool_decide (key ∈ class_attrs) then
    Ok (mkParams (tbk self) (key_category self) (start self) (end_ self)
          (limit self) (limit_from_start self) (functions self)
          (<[key := val]> (attrs self)))
  else object_setattr self key val.

(** [self.set(key, val)].  The call itself needs [self.set] to be the
    method: once an instance attribute named [set] shadows it, the
    value found is not callable. *)
Definition set (self : Params) (key : string) (val : pyval)
    : result Params :=
  if bool_decide (is_Some (attrs self !! "set")) then raise TypeError
  else if negb (hasattr self key) then raise AttributeError
  else if bool_decide (key ∈ ["start"; "end"]) then
    val ← get_timestamp val;
    Ok (setattr_time self key val)
  else setattr self key val.

End WithRuntime.
End Params.

(** ** The record batch and the wire shapes *)

(** One column of a record batch, as [_build_data] sees it:
    [dtype.str] of its elements, the raw bytes of each element in
    order, and the error with which the interpreter's buffer call
    ([buffer] under Python 2, [memoryview] under Python 3) refuses the
    column, if it does.  Under Python 3, [memoryview] refuses with a
    ValueError a column whose dtype has no buffer format, as datetime64
    and timedelta64. *)
Record ndarray : Type := mkArray {
  str : string;
  items : list (list byte);
  refusal : option exn
}.

(** A structured array of one or more dimensions, as [_build_data]
    reads it: the fields in declared order with their columns, and
    [len(recarray)].  A one-dimensional one has distinct field names
    and as many items in every column as it has rows ([structured]).
    An array that is not structured has no field names
    ([dtype.names] is [None], and the first loop raises TypeError); it
    is not of this type. *)
Record recarray : Type := mkRecarray {
  fields : list (string * ndarray);
  len : nat
}.

Definition structured (r : recarray) : Prop :=
  NoDup (fields r).*1 ∧
  Forall (fun f => length (items f.2) = len r) (fields r).

(** [data_type_conv], the table at the top of the file. *)
Definition data_type_conv : gmap string string :=
  {[ "<f4" := "f"; "<f8" := "d"; "<i4" := "i"; "<i8" := "q" ]}.

Module Wire.

(** The dictionary [_build_data] returns. *)
Record dataset : Type := mkDataset {
  types : list string;
  names : list string;
  data : list (list byte);
  length : nat;
  startindex : gmap string nat;
  lengths : gmap string nat
}.

Record write_request : Type := mkWriteRequest {
  dataset_ : dataset;
  is_variable_length : bool
}.

(** The keyword arguments of an RPC call: [{'requests': [...]}]. *)
Inductive kwargs : Type :=
  | QueryRequests (requests : list (gmap string pyval))
  | WriteRequests (requests : list write_request).

End Wire.

(** ** The client *)

Record Client : Type := mkClient {
  endpoint : string;
  (** [self.rpc.call(method, **kwargs)], the transport *)
  rpc_call : string -> Wire.kwargs -> result pyval
}.

Module Client.
Section WithRuntime.
Context `{!Runtime}.

(** [recarray.dtype.names] *)
Definition dtype_names (r : recarray) : list string := (fields r).*1.

(** [recarray.dtype[name]] and [recarray[name]]: the field of that
    name. *)
Fixpoint field (fs : list (string * ndarray)) (name : string)
    : result ndarray :=
  match fs with
  | [] => raise KeyError
  | (n, a) :: fs' => if String.eqb n name then Ok a else field fs' name
  end.

(** [bytes(buffer(a))] and [bytes(memoryview(a))]: the items laid out
    one after the other, unless the buffer call refuses the column. *)
Definition bytes_of_buffer (a : ndarray) : result (list byte) :=
  match refusal a with
  | None => Ok (concat (items a))
  | Some e => Raise e
  end.
Definition bytes_of_memoryview (a : ndarray) : result (list byte) :=
  match refusal a with
  | None => Ok (concat (items a))
  | Some e => Raise e
  end.

Definition _build_data (recarray : recarray) (tbk : string)
    : result Wire.dataset :=
  types ← mapM (fun name =>
                  d ← field (fields recarray) name;
                  Ok (replace "<" "" (str d)))
               (dtype_names recarray);
  let names := dtype_names recarray in
  data ← mapM (fun name =>
                 a ← field (fields recarray) name;
                 if PY2 then bytes_of_buffer a
                 else bytes_of_memoryview a)
              (dtype_names recarray);
  Ok (Wire.mkDataset types names data (len recarray)
        {[ tbk := 0%nat ]} {[ tbk := len recarray ]}).

(** The body of the loop of [_build_query]: the request of one
    [param]. *)
Definition build_req (param : Params) : result (gmap string pyval) :=
  let req : gmap string pyval := {[ "destination" := tbk param ]} in
  let req := if negb (is_None (key_category param))
             then <["key_category" := key_category param]> req else req in
  req ← match start param with
        | Some start =>
            value ← Timestamp_value start;
            Ok (<["epoch_start" :=
                    PInt (Division.int (Division.div PY2 value (10 ^ 9)))]> req)
        | None => Ok req
        end;
  req ← match end_ param with
        | Some end_ =>
            value ← Timestamp_value end_;
            Ok (<["epoch_end" :=
                    PInt (Division.int (Division.div PY2 value (10 ^ 9)))]> req)
        | None => Ok req
        end;
  req ← (if negb (is_None (limit param))
         then n ← py_int (limit param);
              Ok (<["limit_record_count" := PInt n]> req)
         else Ok req);
  let req := if negb (is_None (limit_from_start param))
             then <["limit_from_start" :=
                      PBool (py_bool (limit_from_start param))]> req
             else req in
  let req := if negb (is_None (functions param))
             then <["functions" := functions param]> req else req in
  Ok req.

(** [for param in params: ... reqs.append(req)] *)
Fixpoint build_reqs (reqs : list (gmap string pyval)) (params : list Params)
    : result (list (gmap string pyval)) :=
  match params with
  | [] => Ok reqs
  | param :: params' =>
      req ← build_req param;
      build_reqs (reqs ++ [req]) params'
  end.

(** The argument of [_build_query]: one [Params], or a list, tuple or
    set of them, in the order in which it is iterated. *)
Inductive params_arg : Type :=
  | One (param : Params)
  | Many (params : list Params).

(** [if not isiterable(params): params = [params]] *)
Definition as_list (params : params_arg) : list Params :=
  match params with
  | One param => [param]
  | Many params => params
  end.

Definition _build_query (params : params_arg) : result Wire.kwargs :=
  let params := as_list params in
  reqs ← build_reqs [] params;
  Ok (Wire.QueryRequests reqs).

Definition write (self : Client) (recarray : recarray) (tbk : string)
    (isvariablelength : bool) : result pyval :=
  data ← _build_data recarray tbk;
  let write_request := Wire.mkWriteRequest data isvariablelength in
  let writer := Wire.WriteRequests [write_request] in
  match rpc_call self "DataService.Write" writer with
  | Ok reply => Ok reply
  | Raise e =>
      if is_ConnectionError (exn_cls e)
      then Raise (Exn ConnectionError "Could not contact server")
      else Raise e
  end.

(** The endpoint [stream] hands to [StreamConn]. *)
Definition stream (self : Client) : string :=
  Re.sub_start "http" "ws" (Re.sub_end "/rpc" "/ws" (endpoint self)).

End WithRuntime.
End Client.

(** ** The calls that go through [_request] *)

Module Rpc.

(** A reply as [list_symbols] reads it: a dictionary with string keys,
    or a value that is no dictionary. *)
Inductive reply : Type :=
  | Mapping (d : gmap string pyval)
  | NotMapping (v : pyval).

(** [isinstance(exc, requests.exceptions.HTTPError)] *)
Definition is_HTTPError (c : exn_class) : bool :=
  match c with HTTPError => true | _ => false end.

(** What [logger.exception] has been given, oldest first. *)
Definition log : Type := list exn.

End Rpc.

Module Calls.

(** [self._request(method, **query)], given [self.rpc.call]: the call's
    outcome and what was logged on the way.  The function is the same
    for every shape of keyword arguments and of reply. *)
Definition _request {K R : Type} (call : string -> K -> result R)
    (method : string) (query : K) : result R * Rpc.log :=
  match call method query with
  | Ok reply => (Ok reply, [])
  | Raise exc =>
      if Rpc.is_HTTPError (exn_cls exc) then (Raise exc, [exc])
      else (Raise exc, [])
  end.

Section WithRuntime.
Context `{!Runtime}.

(** [self.query(params)], given the constructor [QueryReply] of the
    results module. *)
Definition query {Q : Type} (QueryReply : pyval -> result Q)
    (self : Client) (params : Client.params_arg) : result Q * Rpc.log :=
  match Client._build_query params with
  | Raise e => (Raise e, [])
  | Ok query =>
      let (reply, logged) := _request (rpc_call self) "DataService.Query" query in
      (reply ≫= QueryReply, logged)
  end.

End WithRuntime.

(** [self.destroy(tbk)] *)
Definition destroy (self : Client) (tbk : string) : result pyval * Rpc.log :=
  let destroy_req := Wire.QueryRequests [ {[ "key" := PStr tbk ]} ] in
  _request (rpc_call self) "DataService.Destroy" destroy_req.

(** [self.list_symbols()], given [self.rpc.call] for a call that passes
    no keyword arguments. *)
Definition list_symbols (call : string -> unit -> result Rpc.reply)
    : result pyval * Rpc.log :=
  let (reply, logged) := _request call "DataService.ListSymbols" tt in
  (reply ← reply;
   match reply with
   | Rpc.Mapping d =>
       match d !! "Results" with
       | Some results => Ok results
       | None => Ok (PList [])
       end
   | Rpc.NotMapping _ => raise AttributeError
   end, logged).

End Calls.

(** ** Notions used to state the properties *)

(** [s1,...,sn] as the specification writes it: the first symbol, then
    every further symbol behind a comma. *)
Definition comma_separated (s1 : string) (rest : list string) : string :=
  s1 +:+ foldr (fun s acc => "," +:+ s +:+ acc) "" rest.

(** [s] ends with [t]. *)
Definition ends_with (s t : string) : Prop := exists p, s = p +:+ t.

(** What the encoder emits for the column [a]. *)
Definition type_string (a : ndarray) : string := replace "<" "" (str a).
Definition raw_bytes (a : ndarray) : list byte := concat (items a).

(** The value stored under an optional key: nothing for [None]. *)
Definition if_set (v : pyval) (w : pyval) : option pyval :=
  if is_None v then None else Some w.

(** The largest whole number of seconds whose nanoseconds fit int64. *)
Definition max_seconds : Z := 9223372036.

Section WithRuntime.
Context `{!Runtime}.

(** [int(value / (10 ** 9))] *)
Definition epoch_seconds (value : Z) : Z :=
  Division.int (Division.div PY2 value (10 ^ 9)).

(** A spec whose [limit], when set, [int] accepts. *)
Definition limit_converts (param : Params) : Prop :=
  is_None (limit param) = true \/ exists n, py_int (limit param) = Ok n.

(** A time value that is unset or has its nanoseconds within int64. *)
Definition fits_int64 (t : option Z) : Prop :=
  forall ns, t = Some ns -> int64_min <= ns <= int64_max.

(** A spec from which a request can be built: its start and end have a
    [.value] and its limit converts. *)
Definition buildable (param : Params) : Prop :=
  fits_int64 (start param) /\ fits_int64 (end_ param) /\ limit_converts param.

End WithRuntime.

(** ** Notions used to state the further properties *)

(** The keys a query request can hold. *)
Definition wire_keys : list string :=
  ["destination"; "key_category"; "epoch_start"; "epoch_end";
   "limit_record_count"; "limit_from_start"; "functions"].

(** The optional fields of a spec, and the wire key of each. *)
Definition optional_fields : list string :=
  ["key_category"; "start"; "end"; "limit"; "limit_from_start"; "functions"].

Definition wire_key (field : string) : string :=
  if String.eqb field "start" then "epoch_start"
  else if String.eqb field "end" then "epoch_end"
  else if String.eqb field "limit" then "limit_record_count"
  else field.

(** The character [c] occurs in [s]. *)
Fixpoint occurs (c : ascii) (s : string) : Prop :=
  match s with
  | EmptyString => False
  | String c' s' => c' = c \/ occurs c s'
  end.

(** The requests of a query. *)
Definition requests_of (q : Wire.kwargs) : list (gmap string pyval) :=
  match q with
  | Wire.QueryRequests requests => requests
  | Wire.WriteRequests _ => []
  end.

Section WithRuntime.
Context `{!Runtime}.

(** What a request built from [param] holds under the key [w]. *)
Definition wire_lookup (param : Params) (w : string) : option pyval :=
  if String.eqb w "destination" then Some (tbk param)
  else if String.eqb w "key_category" then
    if_set (key_category param) (key_category param)
  else if String.eqb w "epoch_start" then
    (fun v => PInt (epoch_seconds v)) <$> start param
  else if String.eqb w "epoch_end" then
    (fun v => PInt (epoch_seconds v)) <$> end_ param
  else if String.eqb w "limit_record_count" then
    if is_None (limit param) then None
    else match py_int (limit param) with
         | Ok n => Some (PInt n)
         | Raise _ => None
         end
  else if String.eqb w "limit_from_start" then
    if_set (limit_from_start param)
      (PBool (py_bool (limit_from_start param)))
  else if String.eqb w "functions" then
    if_set (functions param) (functions param)
  else None.

End WithRuntime.

(** ** Concrete inputs used by the examples below *)

Module Examples.

(** A Python 3 interpreter whose external functions reject every input;
    the examples never reach them. *)
Definition python3 : Runtime := {|
  PY2 := false;
  int_of_str := fun _ => raise ValueError;
  pd_Timestamp := fun _ _ => raise ValueError;
  object_hasattr := fun _ => false;
  object_setattr := fun _ _ _ => raise AttributeError
|}.

(** The same under Python 2. *)
Definition python2 : Runtime := {|
  PY2 := true;
  int_of_str := fun _ => raise ValueError;
  pd_Timestamp := fun _ _ => raise ValueError;
  object_hasattr := fun _ => false;
  object_setattr := fun _ _ _ => raise AttributeError
|}.

(** Python 3 with a pandas that answers an integer of seconds beyond
    the nanosecond range with a timestamp in seconds (as pandas 2
    does). *)
Definition python3_coarse_timestamps : Runtime := {|
  PY2 := false;
  int_of_str := fun _ => raise ValueError;
  pd_Timestamp := fun value unit =>
    match value, unit with
    | PInt n, Some _ => Ok (n * 10 ^ 9)
    | _, _ => raise ValueError
    end;
  object_hasattr := fun _ => false;
  object_setattr := fun _ _ _ => raise AttributeError
|}.

(** Python 3 with a pandas that raises OverflowError on such an integer
    (as pandas 1.5 does). *)
Definition python3_overflowing : Runtime := {|
  PY2 := false;
  int_of_str := fun _ => raise ValueError;
  pd_Timestamp := fun value unit =>
    match value, unit with
    | PInt n, Some _ => raise OverflowError
    | _, _ => raise ValueError
    end;
  object_hasattr := fun _ => false;
  object_setattr := fun _ _ _ => raise AttributeError
|}.

(** Two rows of [('price', '<f4'), ('flag', '|u1')]. *)
Definition ticks : recarray :=
  mkRecarray
    [("price",
      mkArray "<f4" [[x00; x00; x80; x3f]; [x00; x00; x00; x40]] None);
     ("flag", mkArray "|u1" [[x01]; [x00]] None)]
    2.

(** One row of [('Epoch', '<M8[ns]'), ('price', '<f4')] under
    Python 3: datetime64 has no buffer format. *)
Definition no_buffer_format : exn :=
  Exn ValueError "cannot include dtype 'M' in a buffer".
Definition stamped : recarray :=
  mkRecarray
    [("Epoch",
      mkArray "<M8[ns]" [[x00; x00; x00; x00; x00; x00; x00; x00]]
        (Some no_buffer_format));
     ("price", mkArray "<f4" [[x00; x00; x80; x3f]] None)]
    1.

(** 2020-01-01T00:00:00.999999999Z in nanoseconds. *)
Definition just_before_next_second : Z := 1577836800999999999.

(** [Params('TSLA', '1Min', 'OHLCV', limit=10)] and
    [Params(['AAPL', 'IBM'], '1D', 'TICK', start=1577836800)] as
    [__init__] leaves them. *)
Definition tsla : Params :=
  mkParams (PStr "TSLA/1Min/OHLCV") PNone None None (PInt 10) PNone PNone ∅.
Definition aapl_ibm : Params :=
  mkParams (PStr "AAPL,IBM/1D/TICK") PNone (Some 1577836800000000000) None
    PNone PNone PNone ∅.

(** A client at [endpoint] whose transport answers [None]. *)
Definition answering (endpoint : string) : Client :=
  mkClient endpoint (fun _ _ => Ok PNone).

(** A transport that cannot reach the server and says so with [text]. *)
Definition unreachable (text : string) : Client :=
  mkClient "http://localhost:5993/rpc"
    (fun _ _ => Raise (Exn ConnectionError text)).

End Examples.

(** * Properties *)

(** ** Sequencing over lists *)

Section MapM.
Context {A B : Type}.

Lemma mapM_result_Forall2 (f : A -> result B) (l : list A) :
  Forall (fun x => exists y, f x = Ok y) l ->
  exists ys, mapM f l = Ok ys /\ Forall2 (fun x y => f x = Ok y) l ys.
Proof.
  induction 1 as [|x l [y Hy] _ (ys & Hys & IH)].
  - exists []. split; [reflexivity | constructor].
  - exists (y :: ys). split.
    + cbn. rewrite Hy. cbn.
      change (mapM f l ≫= (fun k => mret (y :: k)) = Ok (y :: ys)).
      rewrite Hys. reflexivity.
    + constructor; assumption.
Qed.

Lemma bind_Ok (m : result A) (k : A -> result B) (y : B) :
  m ≫= k = Ok y -> exists x, m = Ok x /\ k x = Ok y.
Proof. destruct m as [x|e]; cbn; [eauto | discriminate]. Qed.

Lemma bind_Raise (m : result A) (k : A -> result B) (e : exn) :
  m ≫= k = Raise e -> m = Raise e \/ exists x, m = Ok x /\ k x = Raise e.
Proof. destruct m as [x|e']; cbn; [eauto | intros [= <-]; by left]. Qed.

Lemma mapM_result_Ok (f : A -> result B) (l : list A) (ys : list B) :
  mapM f l = Ok ys -> Forall2 (fun x y => f x = Ok y) l ys.
Proof.
  revert ys. induction l as [|x l IH]; intros ys.
  - intros [= <-]. constructor.
  - cbn. destruct (f x) as [y|e] eqn:Hx; cbn; [|discriminate].
    change (mapM f l ≫= (fun k => mret (y :: k)) = Ok ys ->
            Forall2 (fun x y => f x = Ok y) (x :: l) ys).
    destruct (mapM f l) as [k|e]; cbn; [|discriminate].
    intros [= <-]. constructor; auto.
Qed.

Lemma mapM_result_Raise (f : A -> result B) (l : list A) (e : exn) :
  mapM f l = Raise e -> exists x, x ∈ l /\ f x = Raise e.
Proof.
  induction l as [|x l IH]; [discriminate|].
  cbn. destruct (f x) as [y|e'] eqn:Hx; cbn.
  - change (mapM f l ≫= (fun k => mret (y :: k)) = Raise e ->
            exists x0, x0 ∈ x :: l /\ f x0 = Raise e).
    destruct (mapM f l) as [k|e'']; cbn; [discriminate|].
    intros [= <-]. destruct IH as (x0 & Hin & Hx0); [reflexivity|].
    exists x0. split; [by apply list_elem_of_further | assumption].
  - intros [= <-]. exists x. split; [apply list_elem_of_here | assumption].
Qed.

End MapM.

(** ** Strings *)

Section Strings.

Lemma string_app_cons (c : ascii) (s t : string) :
  String c s +:+ t = String c (s +:+ t).
Proof. reflexivity. Qed.

Lemma string_app_nil_l (s : string) : "" +:+ s = s.
Proof. reflexivity. Qed.

Lemma string_app_empty_r (s : string) : s +:+ "" = s.
Proof.
  induction s as [|c s IH]; [reflexivity|].
  by rewrite string_app_cons, IH.
Qed.

Lemma string_app_assoc (a b c : string) : (a +:+ b) +:+ c = a +:+ b +:+ c.
Proof.
  induction a as [|x a IH]; [reflexivity|].
  by rewrite !string_app_cons, IH.
Qed.

End Strings.

(** ** The bucket key *)

Section BucketKey.
Context `{!Runtime}.

Lemma join_comma_separated (s1 : string) (rest : list string) :
  join "," (s1 :: rest) = comma_separated s1 rest.
Proof.
  unfold comma_separated. revert s1.
  induction rest as [|s2 rest IH]; intros s1.
  - cbn. by rewrite string_app_empty_r.
  - change (join "," (s1 :: s2 :: rest)) with (s1 +:+ "," +:+ join "," (s2 :: rest)).
    rewrite IH. reflexivity.
Qed.

Lemma join_symbols_strings (l : list string) :
  Params.join_symbols (PStr <$> l) = Ok (join "," l).
Proof.
  unfold Params.join_symbols.
  assert (mapM (fun v => match v with PStr s => Ok s | _ => raise TypeError end)
            (PStr <$> l) = Ok l) as ->; [|reflexivity].
  induction l as [|s l IH]; [reflexivity|].
  cbn.
  change (mapM (fun v => match v with PStr s0 => Ok s0 | _ => raise TypeError end)
            (PStr <$> l) ≫= (fun k => mret (s :: k)) = Ok (s :: l)).
  rewrite IH. reflexivity.
Qed.

(** C3. A spec built from a single symbol [s] has the bucket key
    [s/tf/ag]; a spec built from the ordered collection [s1,...,sn]
    (n >= 1) has the bucket key [s1,...,sn/tf/ag], the symbols in
    their given order.  The constructor returns whenever the start and
    end values convert. *)
Theorem bucket_key_of_symbols (tf ag : string) (st en li lfs : pyval)
    (t1 t2 : option Z) :
  get_timestamp st = Ok t1 ->
  get_timestamp en = Ok t2 ->
  (forall s : string,
     exists p, Params.__init__ (PStr s) tf ag st en li lfs = Ok p
       /\ tbk p = PStr (s +:+ "/" +:+ tf +:+ "/" +:+ ag))
  /\ (forall (s1 : string) (rest : list string),
     exists p, Params.__init__ (PList (s1 :: rest)) tf ag st en li lfs = Ok p
       /\ tbk p = PStr (comma_separated s1 rest +:+ "/" +:+ tf +:+ "/" +:+ ag)).
Proof.
  intros H1 H2. split.
  - intros s. eexists. split.
    + unfold Params.__init__. cbn. rewrite H1. cbn. rewrite H2. reflexivity.
    + reflexivity.
  - intros s1 rest. eexists. split.
    + unfold Params.__init__.
      change (if negb (isiterable (PList (s1 :: rest)))
              then [PList (s1 :: rest)]
              else Params.elements (PList (s1 :: rest)))
        with (PStr <$> (s1 :: rest)).
      rewrite join_symbols_strings. cbn - [join].
      rewrite H1. cbn - [join]. rewrite H2. cbn - [join]. reflexivity.
    + cbn - [join]. by rewrite join_comma_separated.
Qed.

End BucketKey.

Lemma bucket_key_of_symbols_witness :
  (exists p, @Params.__init__ Examples.python3 (PStr "TSLA") "1Min" "OHLCV"
               PNone (PInt 1577836800) PNone PNone = Ok p
     /\ tbk p = PStr "TSLA/1Min/OHLCV")
  /\ (exists p, @Params.__init__ Examples.python3 (PList ["AAPL"; "TSLA"; "IBM"])
               "1D" "TICK" PNone (PInt 1577836800) PNone PNone = Ok p
     /\ tbk p = PStr "AAPL,TSLA,IBM/1D/TICK").
Proof.
  destruct (@bucket_key_of_symbols Examples.python3 "1Min" "OHLCV"
              PNone (PInt 1577836800) PNone PNone None (Some 1577836800000000000)
              eq_refl eq_refl) as [H _].
  destruct (@bucket_key_of_symbols Examples.python3 "1D" "TICK"
              PNone (PInt 1577836800) PNone PNone None (Some 1577836800000000000)
              eq_refl eq_refl) as [_ H'].
  split; [exact (H "TSLA") | exact (H' "AAPL" ["TSLA"; "IBM"])].
Defined.

(** ** The request builder *)

Section QueryRequest.
Context `{!Runtime}.

(** Every key of a built request, read back. *)
Lemma build_req_fields (param : Params) (req : gmap string pyval) :
  Client.build_req param = Ok req ->
  req !! "destination" = Some (tbk param)
  /\ req !! "key_category" = if_set (key_category param) (key_category param)
  /\ req !! "epoch_start" = (fun v => PInt (epoch_seconds v)) <$> start param
  /\ req !! "epoch_end" = (fun v => PInt (epoch_seconds v)) <$> end_ param
  /\ ((is_None (limit param) = true /\ req !! "limit_record_count" = None)
      \/ (is_None (limit param) = false
          /\ exists n, py_int (limit param) = Ok n
               /\ req !! "limit_record_count" = Some (PInt n)))
  /\ req !! "limit_from_start" =
       if_set (limit_from_start param) (PBool (py_bool (limit_from_start param)))
  /\ req !! "functions" = if_set (functions param) (functions param).
Proof.
  unfold Client.build_req, if_set, epoch_seconds, Timestamp_value.
  destruct (is_None (key_category param)), (start param) as [t1|],
    (end_ param) as [t2|],
    (is_None (limit_from_start param)), (is_None (functions param));
    cbn [negb fmap option_fmap option_map];
    try (destruct ((int64_min <=? t1) && (t1 <=? int64_max));
         cbn [mbind result_bind]; [|discriminate]);
    try (destruct ((int64_min <=? t2) && (t2 <=? int64_max));
         cbn [mbind result_bind]; [|discriminate]);
    (destruct (is_None (limit param)); cbn [negb mbind result_bind];
     [ intros [= <-]; repeat split; left; split; reflexivity
     | destruct (py_int (limit param)) as [n|e]; cbn [mbind result_bind];
       [|discriminate];
       intros [= <-]; repeat split; right; split; [reflexivity|];
       exists n; split; reflexivity ]).
Qed.

End QueryRequest.

Section QueryRequests.
Context `{!Runtime}.

Lemma Timestamp_value_fits (t : Z) :
  int64_min <= t <= int64_max -> Timestamp_value t = Ok t.
Proof.
  intros [Hlo Hhi]. unfold Timestamp_value.
  destruct (Z.leb_spec int64_min t); [|lia].
  destruct (Z.leb_spec t int64_max); [|lia].
  reflexivity.
Qed.

Lemma build_req_total (param : Params) :
  buildable param -> exists req, Client.build_req param = Ok req.
Proof.
  unfold Client.build_req. intros (Hstart & Hend & Hlimit).
  destruct (start param) as [t1|];
    [rewrite (Timestamp_value_fits t1 (Hstart t1 eq_refl))|];
    (destruct (end_ param) as [t2|];
     [rewrite (Timestamp_value_fits t2 (Hend t2 eq_refl))|]);
    cbn [mbind result_bind];
    (destruct Hlimit as [Hnone | [n Hn]];
     [ rewrite Hnone; cbn; eauto
     | destruct (is_None (limit param)); cbn [negb mbind result_bind];
       [eauto | rewrite Hn; cbn; eauto] ]).
Qed.

Lemma build_reqs_total (params : list Params) :
  Forall buildable params ->
  forall reqs, exists out, Client.build_reqs reqs params = Ok out.
Proof.
  induction 1 as [|param params Hp _ IH]; intros reqs; cbn.
  - eauto.
  - destruct (build_req_total param Hp) as [req ->]. cbn. apply IH.
Qed.

(** The loop appends one request per spec, in order. *)
Lemma build_reqs_Forall2 (params : list Params) :
  forall reqs out,
    Client.build_reqs reqs params = Ok out ->
    exists new, out = reqs ++ new
      /\ Forall2 (fun param req => Client.build_req param = Ok req) params new.
Proof.
  induction params as [|param params IH]; intros reqs out; cbn.
  - intros [= <-]. exists []. split; [by rewrite app_nil_r | constructor].
  - destruct (Client.build_req param) as [req|e] eqn:Hreq; cbn; [|discriminate].
    intros Hout. destruct (IH _ _ Hout) as (new & -> & Hnew).
    exists (req :: new). split; [by rewrite <- app_assoc | by constructor].
Qed.

(** C10. No spec gives [{'requests': []}].  A list of specs gives one
    request per spec, in the order of the list, the i-th with the
    bucket key of the i-th spec as destination; a single spec gives
    exactly one request, with its bucket key.  The build returns
    whenever every spec has a limit that converts to an integer and
    start and end values within the nanosecond range. *)
Theorem build_query_one_request_per_spec :
  Client._build_query (Client.Many []) = Ok (Wire.QueryRequests [])
  /\ (forall specs : list Params,
        (Forall buildable specs ->
         exists reqs,
           Client._build_query (Client.Many specs) = Ok (Wire.QueryRequests reqs))
        /\ forall q, Client._build_query (Client.Many specs) = Ok q ->
             exists reqs, q = Wire.QueryRequests reqs
               /\ length reqs = length specs
               /\ forall i spec, specs !! i = Some spec ->
                    exists req, reqs !! i = Some req
                      /\ req !! "destination" = Some (tbk spec))
  /\ (forall spec : Params,
        (buildable spec ->
         exists req,
           Client._build_query (Client.One spec) = Ok (Wire.QueryRequests [req]))
        /\ forall q, Client._build_query (Client.One spec) = Ok q ->
             exists req, q = Wire.QueryRequests [req]
               /\ req !! "destination" = Some (tbk spec)).
Proof.
  split; [reflexivity|]. unfold Client._build_query, Client.as_list. split.
  - intros specs. split.
    + intros Hall. destruct (build_reqs_total _ Hall []) as [out ->].
      cbn. eauto.
    + intros q.
      destruct (Client.build_reqs [] specs) as [out|e] eqn:Hout;
        cbn; [|discriminate].
      intros [= <-]. exists out.
      destruct (build_reqs_Forall2 _ _ _ Hout) as (new & -> & Hnew).
      cbn. split; [reflexivity|]. split.
      * symmetry. by eapply Forall2_length.
      * intros i spec Hi.
        destruct (Forall2_lookup_l _ _ _ _ _ Hnew Hi) as (req & Hreq & Hbuilt).
        exists req. split; [assumption|].
        by apply build_req_fields in Hbuilt as [? _].
  - intros spec. cbn. split.
    + intros Hspec. destruct (build_req_total spec Hspec) as [req ->].
      cbn. eauto.
    + intros q.
      destruct (Client.build_req spec) as [req|e] eqn:Hreq; cbn; [|discriminate].
      intros [= <-]. exists req. split; [reflexivity|].
      by apply build_req_fields in Hreq as [? _].
Qed.

End QueryRequests.

Lemma build_query_one_request_per_spec_witness :
  (exists reqs,
     @Client._build_query Examples.python3
       (Client.Many [Examples.tsla; Examples.aapl_ibm]) = Ok (Wire.QueryRequests reqs)
     /\ length reqs = 2%nat
     /\ (exists req, reqs !! 1%nat = Some req
           /\ req !! "destination" = Some (PStr "AAPL,IBM/1D/TICK")))
  /\ (exists req,
        @Client._build_query Examples.python3 (Client.One Examples.aapl_ibm)
          = Ok (Wire.QueryRequests [req])
        /\ req !! "destination" = Some (PStr "AAPL,IBM/1D/TICK")).
Proof.
  destruct (@build_query_one_request_per_spec Examples.python3)
    as (_ & Hmany & Hone).
  assert (@buildable Examples.python3 Examples.tsla) as Htsla.
  { split; [discriminate|]. split; [discriminate|].
    right. exists 10. reflexivity. }
  assert (@buildable Examples.python3 Examples.aapl_ibm) as Haapl.
  { split.
    - intros ns [= <-]. unfold int64_min, int64_max. lia.
    - split; [discriminate | left; reflexivity]. }
  split.
  - destruct (Hmany [Examples.tsla; Examples.aapl_ibm]) as [Hok Hshape].
    destruct Hok as [reqs Hreqs].
    { constructor; [exact Htsla|]. constructor; [exact Haapl | constructor]. }
    exists reqs. split; [exact Hreqs|].
    destruct (Hshape _ Hreqs) as (reqs' & [= <-] & Hlen & Hdest).
    split; [exact Hlen|].
    exact (Hdest 1%nat Examples.aapl_ibm eq_refl).
  - destruct (Hone Examples.aapl_ibm) as [Hok Hshape].
    destruct (Hok Haapl) as [req Hreq].
    exists req. split; [exact Hreq|].
    destruct (Hshape _ Hreq) as (req' & [= <-] & Hdest).
    exact Hdest.
Defined.

(** Under Python 2 the conversion is the floor of the quotient, the
    whole seconds of every instant. *)
Lemma epoch_seconds_python2 `{!Runtime} (value : Z) :
  PY2 = true -> epoch_seconds value = value / 10 ^ 9.
Proof. unfold epoch_seconds, Division.div. by intros ->. Qed.

(** C4, at a start value just below a whole second: Python 3 divides
    the nanoseconds as a float, which rounds up to the next second,
    where Python 2 and the whole seconds of the instant both give
    1577836800. *)
Theorem epoch_start_rounded_up_by_float_division :
  exists p,
    @Params.__init__ Examples.python3 (PStr "TSLA") "1Min" "OHLCV"
      (PTimestamp Examples.just_before_next_second) PNone PNone PNone = Ok p
    /\ start p = Some 1577836800999999999
    /\ (exists req,
          @Client._build_query Examples.python3 (Client.One p)
            = Ok (Wire.QueryRequests [req])
          /\ req !! "epoch_start" = Some (PInt 1577836801))
    /\ (exists req,
          @Client._build_query Examples.python2 (Client.One p)
            = Ok (Wire.QueryRequests [req])
          /\ req !! "epoch_start" = Some (PInt 1577836800))
    /\ 1577836800999999999 / 10 ^ 9 = 1577836800.
Proof.
  eexists. split; [reflexivity|]. split; [reflexivity|].
  split; [|split].
  - eexists. split; [reflexivity|]. vm_compute. reflexivity.
  - eexists. split; [reflexivity|]. vm_compute. reflexivity.
  - reflexivity.
Qed.

(** ** Seconds to nanoseconds and back *)

Section Division.
Import Division.

Lemma round_half_even_nearest (p q : Z) :
  0 <= p -> 0 < q ->
  2 * Z.abs (p - round_half_even p q * q) <= q
  /\ (2 * Z.abs (p - round_half_even p q * q) = q ->
      Z.even (round_half_even p q) = true).
Proof.
  intros Hp Hq. unfold round_half_even.
  pose proof (Z.div_mod p q ltac:(lia)) as Hdiv.
  pose proof (Z.mod_pos_bound p q Hq) as Hmod.
  destruct (Z.ltb_spec (2 * (p mod q)) q).
  - split; [lia|]. intros. lia.
  - destruct (Z.ltb_spec q (2 * (p mod q))).
    + split; [lia|]. intros. lia.
    + destruct (Z.even (p / q)) eqn:Hev.
      * split; [lia|]. auto.
      * split; [lia|]. intros _. rewrite Z.even_add, Hev. reflexivity.
Qed.

Lemma round_half_even_mono_bounds (p q lo hi : Z) :
  0 < q -> lo * q <= p -> p <= hi * q ->
  lo <= round_half_even p q <= hi.
Proof.
  intros Hq Hlo Hhi. unfold round_half_even.
  pose proof (Z.div_mod p q ltac:(lia)) as Hdiv.
  pose proof (Z.mod_pos_bound p q Hq) as Hmod.
  assert (lo <= p / q) by (apply Z.div_le_lower_bound; lia).
  assert (p / q <= hi) by (apply Z.div_le_upper_bound; lia).
  assert (p / q = hi -> p mod q = 0) by nia.
  destruct (Z.ltb_spec (2 * (p mod q)) q); [lia|].
  destruct (Z.ltb_spec q (2 * (p mod q))); [lia|].
  destruct (Z.even (p / q)); lia.
Qed.

Lemma pow2_split (i j : Z) : 0 <= i -> 0 <= j -> 2 ^ (i + j) = 2 ^ i * 2 ^ j.
Proof. intros. apply Z.pow_add_r; assumption. Qed.

Lemma quotient_exponent_spec (a b : Z) :
  0 < a -> 0 < b ->
  let e := quotient_exponent a b in
  2 ^ 52 * (b * 2 ^ Z.max 0 e) <= a * 2 ^ Z.max 0 (- e)
  /\ a * 2 ^ Z.max 0 (- e) < 2 ^ 53 * (b * 2 ^ Z.max 0 e).
Proof.
  intros Ha Hb. unfold quotient_exponent.
  destruct (Z.log2_spec a Ha) as [Ha1 Ha2].
  destruct (Z.log2_spec b Hb) as [Hb1 Hb2].
  pose proof (Z.log2_nonneg a) as Hla. pose proof (Z.log2_nonneg b) as Hlb.
  rewrite Z.pow_succ_r in Ha2, Hb2 by assumption.
  set (la := Z.log2 a) in *. set (lb := Z.log2 b) in *.
  replace (la - lb - 52 + 52) with (la - lb) by ring.
  set (k := la - lb).
  assert (0 < 2 ^ la) by (apply Z.pow_pos_nonneg; lia).
  assert (0 < 2 ^ lb) by (apply Z.pow_pos_nonneg; lia).
  destruct (Z.le_gt_cases 0 k) as [Hk|Hk].
  - (* la = lb + k *)
    assert (2 ^ la = 2 ^ lb * 2 ^ k) as Hlak
      by (rewrite <- pow2_split by lia; f_equal; lia).
    assert (0 < 2 ^ k) by (apply Z.pow_pos_nonneg; lia).
    rewrite (Z.max_l 0 (- k)), (Z.max_r 0 k) by lia.
    rewrite Z.pow_0_r, Z.mul_1_r.
    destruct (Z.ltb_spec a (b * 2 ^ k)) as [HT|HT]; cbv zeta.
    + (* e = k - 53 *)
      replace (k - 52 - 1) with (k - 53) by lia.
      destruct (Z.le_gt_cases 53 k) as [He|He].
      * rewrite (Z.max_r 0 (k - 53)), (Z.max_l 0 (- (k - 53))) by lia.
        assert (2 ^ k = 2 ^ 53 * 2 ^ (k - 53)) as Hk53
          by (rewrite <- pow2_split by lia; f_equal; lia).
        assert (0 < 2 ^ (k - 53)) by (apply Z.pow_pos_nonneg; lia).
        rewrite Z.pow_0_r, Z.mul_1_r.
        change (2 ^ 53) with (2 * 2 ^ 52) in *. nia.
      * rewrite (Z.max_l 0 (k - 53)), (Z.max_r 0 (- (k - 53))) by lia.
        assert (2 ^ 53 = 2 ^ k * 2 ^ (- (k - 53))) as Hk53
          by (rewrite <- pow2_split by lia; f_equal; lia).
        assert (0 < 2 ^ (- (k - 53))) by (apply Z.pow_pos_nonneg; lia).
        rewrite Z.pow_0_r, Z.mul_1_r.
        change (2 ^ 52) with (2 ^ 53 / 2). 
        assert (2 ^ 53 = 2 * (2 ^ 53 / 2)) as H53 by reflexivity.
        set (h := 2 ^ 53 / 2) in *. nia.
    + (* e = k - 52 *)
      
      destruct (Z.le_gt_cases 52 k) as [He|He].
      * rewrite (Z.max_r 0 (k - 52)), (Z.max_l 0 (- (k - 52))) by lia.
        assert (2 ^ k = 2 ^ 52 * 2 ^ (k - 52)) as Hk52
          by (rewrite <- pow2_split by lia; f_equal; lia).
        assert (0 < 2 ^ (k - 52)) by (apply Z.pow_pos_nonneg; lia).
        rewrite Z.pow_0_r, Z.mul_1_r.
        change (2 ^ 53) with (2 * 2 ^ 52) in *. nia.
      * rewrite (Z.max_l 0 (k - 52)), (Z.max_r 0 (- (k - 52))) by lia.
        assert (2 ^ 52 = 2 ^ k * 2 ^ (- (k - 52))) as Hk52
          by (rewrite <- pow2_split by lia; f_equal; lia).
        assert (0 < 2 ^ (- (k - 52))) by (apply Z.pow_pos_nonneg; lia).
        rewrite Z.pow_0_r, Z.mul_1_r.
        change (2 ^ 53) with (2 * 2 ^ 52) in *. nia.
  - (* lb = la + (- k) *)
    assert (2 ^ lb = 2 ^ la * 2 ^ (- k)) as Hlbk
      by (rewrite <- pow2_split by lia; f_equal; lia).
    assert (0 < 2 ^ (- k)) by (apply Z.pow_pos_nonneg; lia).
    rewrite (Z.max_r 0 (- k)), (Z.max_l 0 k) by lia.
    rewrite Z.pow_0_r, Z.mul_1_r.
    destruct (Z.ltb_spec (a * 2 ^ (- k)) b) as [HT|HT]; cbv zeta.
    + replace (k - 52 - 1) with (k - 53) by lia.
      rewrite (Z.max_l 0 (k - 53)), (Z.max_r 0 (- (k - 53))) by lia.
      assert (2 ^ (- (k - 53)) = 2 ^ 53 * 2 ^ (- k)) as Hk53
        by (rewrite <- pow2_split by lia; f_equal; lia).
      rewrite Z.pow_0_r, Z.mul_1_r, Hk53.
      change (2 ^ 53) with (2 * 2 ^ 52) in *. nia.
    + 
      rewrite (Z.max_l 0 (k - 52)), (Z.max_r 0 (- (k - 52))) by lia.
      assert (2 ^ (- (k - 52)) = 2 ^ 52 * 2 ^ (- k)) as Hk52
        by (rewrite <- pow2_split by lia; f_equal; lia).
      rewrite Z.pow_0_r, Z.mul_1_r, Hk52.
      change (2 ^ 53) with (2 * 2 ^ 52) in *. nia.
Qed.

(** The model of Python 3's [/] is the division of binary64: the result
    has a 53-bit mantissa and is the nearest such number to the exact
    quotient, the even one of two equally near. *)
Lemma truediv_pos_nearest (a b : Z) :
  0 < a -> 0 < b ->
  let f := truediv_pos a b in
  let p := a * 2 ^ Z.max 0 (- expo f) in
  let q := b * 2 ^ Z.max 0 (expo f) in
  2 ^ 52 <= mant f <= 2 ^ 53
  /\ 2 * Z.abs (p - mant f * q) <= q
  /\ (2 * Z.abs (p - mant f * q) = q -> Z.even (mant f) = true).
Proof.
  intros Ha Hb. unfold truediv_pos.
  destruct (Z.eqb_spec a 0); [lia|]. cbn [mant expo].
  destruct (quotient_exponent_spec a b Ha Hb) as [Hlo Hhi].
  set (e := quotient_exponent a b) in *. cbv zeta.
  assert (0 < b * 2 ^ Z.max 0 e) as Hq
    by (apply Z.mul_pos_pos; [assumption | apply Z.pow_pos_nonneg; lia]).
  assert (0 <= a * 2 ^ Z.max 0 (- e)) as Hp
    by (apply Z.mul_nonneg_nonneg; [lia | apply Z.pow_nonneg; lia]).
  split.
  - apply round_half_even_mono_bounds; [assumption | lia | lia].
  - by apply round_half_even_nearest.
Qed.

Lemma round_half_even_multiple (k q : Z) :
  0 < q -> round_half_even (k * q) q = k.
Proof.
  intros Hq. unfold round_half_even.
  rewrite Z.mod_mul, Z.div_mul by lia.
  destruct (Z.ltb_spec (2 * 0) q); [reflexivity | lia].
Qed.

Lemma quotient_exponent_le (a b : Z) :
  quotient_exponent a b <= Z.log2 a - Z.log2 b - 52.
Proof. unfold quotient_exponent. case (_ <? _); lia. Qed.

(** An exact quotient below [2^53] survives the float division. *)
Lemma int_truediv_multiple (n b : Z) :
  0 <= n -> 0 < b -> Z.log2 (n * b) < Z.log2 b + 52 ->
  int_of_float (truediv (n * b) b) = n.
Proof.
  intros Hn Hb Hlog. unfold truediv.
  destruct (Z.leb_spec 0 (n * b)); [|nia].
  unfold truediv_pos. destruct (Z.eqb_spec (n * b) 0) as [H0|H0].
  - cbn. nia.
  - pose proof (quotient_exponent_le (n * b) b) as He.
    set (e := quotient_exponent (n * b) b) in *.
    unfold int_of_float. cbn [expo mant].
    destruct (Z.leb_spec 0 e); [lia|].
    rewrite (Z.max_r 0 (- e)), (Z.max_l 0 e), Z.pow_0_r, Z.mul_1_r by lia.
    replace (n * b * 2 ^ (- e)) with (n * 2 ^ (- e) * b) by ring.
    rewrite round_half_even_multiple by assumption.
    apply Z.quot_mul. apply Z.pow_nonzero; lia.
Qed.

End Division.

Section EpochSeconds.
Context `{!Runtime}.

Lemma epoch_seconds_of_seconds (n : Z) :
  0 <= n <= max_seconds -> epoch_seconds (n * 10 ^ 9) = n.
Proof.
  unfold max_seconds, epoch_seconds, Division.div. intros Hn.
  change (10 ^ 9) with 1000000000.
  destruct PY2; cbn [Division.int].
  - apply Z.div_mul. lia.
  - apply int_truediv_multiple; [lia | lia |].
    change (Z.log2 1000000000) with 29.
    destruct (Z.eq_dec n 0) as [->|Hn0]; [reflexivity|].
    assert (0 < n * 1000000000) as Hpos by lia.
    assert (n * 1000000000 < 2 ^ 63) as Hlt by lia.
    pose proof (proj1 (Z.log2_lt_pow2 _ 63 Hpos) Hlt). lia.
Qed.

Lemma get_timestamp_seconds (n : Z) :
  0 <= n <= max_seconds -> get_timestamp (PInt n) = Ok (Some (n * 10 ^ 9)).
Proof.
  unfold max_seconds. intros Hn. unfold get_timestamp, Timestamp. cbn.
  unfold int64_min, int64_max.
  destruct (Z.leb_spec (- 2 ^ 63) (n * 10 ^ 9)); [|lia].
  destruct (Z.leb_spec (n * 10 ^ 9) (2 ^ 63 - 1)); [|lia].
  reflexivity.
Qed.

Lemma seconds_fit_int64 (n : Z) :
  0 <= n <= max_seconds -> fits_int64 (Some (n * 10 ^ 9)).
Proof.
  unfold max_seconds, fits_int64, int64_min, int64_max.
  intros Hn ns [= <-]. lia.
Qed.

(** C2, within the range of the timestamp type.  For an integer [n]
    from 0 to 9223372036, the time value built from [n] is [n] seconds
    after the epoch and converts back to exactly [n]; a spec built with
    start and end [n] gives a request with [n] under [epoch_start] and
    [epoch_end], and so does every request built from a spec whose
    start or end was set to [n]. *)
Theorem epoch_round_trip (n : Z) :
  0 <= n <= max_seconds ->
  get_timestamp (PInt n) = Ok (Some (n * 10 ^ 9))
  /\ Timestamp_value (n * 10 ^ 9) = Ok (n * 10 ^ 9)
  /\ epoch_seconds (n * 10 ^ 9) = n
  /\ (forall s tf ag, exists p req,
        Params.__init__ (PStr s) tf ag (PInt n) (PInt n) PNone PNone = Ok p
        /\ Client._build_query (Client.One p) = Ok (Wire.QueryRequests [req])
        /\ req !! "epoch_start" = Some (PInt n)
        /\ req !! "epoch_end" = Some (PInt n))
  /\ (forall self key, attrs self !! "set" = None ->
        key = "start" \/ key = "end" ->
        exists self',
          Params.set self key (PInt n) = Ok self'
          /\ (buildable self -> exists req, Client.build_req self' = Ok req)
          /\ (forall req, Client.build_req self' = Ok req ->
                req !! ("epoch_" +:+ key) = Some (PInt n))).
Proof.
  intros Hn.
  pose proof (get_timestamp_seconds n Hn) as Hts.
  pose proof (epoch_seconds_of_seconds n Hn) as Hsec.
  pose proof (seconds_fit_int64 n Hn) as Hfit.
  split; [assumption|].
  split; [apply Timestamp_value_fits, (Hfit _ eq_refl)|].
  split; [assumption|]. split.
  - intros s tf ag. unfold Params.__init__. cbn - [get_timestamp Z.pow].
    rewrite Hts. cbn - [Z.pow].
    eexists.
    destruct (build_req_total
                (mkParams (PStr (s +:+ "/" +:+ tf +:+ "/" +:+ ag)) PNone
                   (Some (n * 10 ^ 9)) (Some (n * 10 ^ 9)) PNone PNone PNone ∅))
      as [req Hreq].
    { split; [exact Hfit|]. split; [exact Hfit | by left]. }
    exists req. split; [reflexivity|].
    unfold Client._build_query, Client.as_list, Client.build_reqs.
    rewrite Hreq. split; [reflexivity|].
    apply build_req_fields in Hreq as (_ & _ & Hs & He & _).
    cbn - [Z.pow] in Hs, He. rewrite Hsec in *. by split.
  - intros self key Hset Hkey.
    exists (Params.setattr_time self key (Some (n * 10 ^ 9))). split.
    + unfold Params.set. rewrite Hset.
      destruct Hkey as [-> | ->]; cbn - [get_timestamp Z.pow];
        rewrite Hts; reflexivity.
    + split.
      * intros (Hstart & Hend & Hlim). apply build_req_total.
        unfold buildable, limit_converts, Params.setattr_time.
        destruct (String.eqb key "start"); cbn [start end_ limit]; auto.
      * intros req Hreq.
        apply build_req_fields in Hreq as (_ & _ & Hs & He & _).
        destruct Hkey as [-> | ->]; cbn - [Z.pow] in Hs, He;
          rewrite Hsec in *; assumption.
Qed.

End EpochSeconds.

Lemma epoch_round_trip_witness :
  @get_timestamp Examples.python3 (PInt 1577836800)
    = Ok (Some 1577836800000000000)
  /\ @epoch_seconds Examples.python3 1577836800000000000 = 1577836800.
Proof.
  destruct (@epoch_round_trip Examples.python3 1577836800) as (H1 & _ & H2 & _).
  { unfold max_seconds. lia. }
  split; [exact H1 | exact H2].
Defined.

(** C2 as stated, at n = 10000000000, whose nanoseconds do not fit
    int64.  Where pandas answers with a timestamp in seconds, the spec
    is built and converting its start back raises OverflowError; where
    pandas raises OverflowError, no time value is built.  Either way
    the round trip does not yield n. *)
Lemma epoch_round_trip_out_of_range :
  (exists p,
     @Params.__init__ Examples.python3_coarse_timestamps (PStr "TSLA") "1Min"
       "OHLCV" (PInt 10000000000) PNone PNone PNone = Ok p
     /\ start p = Some (10000000000 * 10 ^ 9)
     /\ @Client._build_query Examples.python3_coarse_timestamps (Client.One p)
        = raise OverflowError)
  /\ @get_timestamp Examples.python3_overflowing (PInt 10000000000)
     = raise OverflowError.
Proof.
  split; [|reflexivity].
  eexists. split; [reflexivity|]. split; reflexivity.
Qed.

(** ** The payload encoder *)

Section Payload.
Context `{!Runtime}.

Lemma field_of_name (fs : list (string * ndarray)) (name : string) :
  name ∈ fs.*1 -> exists a, Client.field fs name = Ok a.
Proof.
  induction fs as [|[n a] fs IH]; cbn.
  - intros Hin. by apply elem_of_nil in Hin.
  - intros Hin. destruct (String.eqb_spec n name) as [->|Hne]; [eauto|].
    apply elem_of_cons in Hin as [->|Hin]; [congruence | auto].
Qed.

(** With distinct field names, the field of the i-th name is the i-th
    column. *)
Lemma field_of_index (fs : list (string * ndarray)) (i : nat) name a :
  NoDup fs.*1 -> fs !! i = Some (name, a) -> Client.field fs name = Ok a.
Proof.
  revert i. induction fs as [|[n b] fs IH]; intros i Hnd Hi; [done|].
  apply NoDup_cons in Hnd as [Hn Hnd]. cbn.
  destruct i as [|i]; cbn in Hi.
  - injection Hi as -> ->. by rewrite String.eqb_refl.
  - destruct (String.eqb_spec n name) as [->|Hne]; [|eauto].
    exfalso. apply Hn. apply list_elem_of_fmap. exists (name, a).
    split; [reflexivity|]. by eapply list_elem_of_lookup_2.
Qed.

(** The bytes of a column under the interpreter at hand. *)
Lemma tobytes_accepted (a : ndarray) (buf : list byte) :
  (if PY2 then Client.bytes_of_buffer a else Client.bytes_of_memoryview a)
    = Ok buf ->
  refusal a = None /\ buf = raw_bytes a.
Proof.
  unfold Client.bytes_of_buffer, Client.bytes_of_memoryview, raw_bytes.
  destruct PY2, (refusal a); intros [= <-]; by split.
Qed.

(** A payload that the encoder returns is built by going through the
    declared names in order. *)
Lemma build_data_returned (r : recarray) (tbk : string) (d : Wire.dataset) :
  Client._build_data r tbk = Ok d ->
  exists tys bufs,
    d = Wire.mkDataset tys (Client.dtype_names r) bufs (len r)
          {[ tbk := 0%nat ]} {[ tbk := len r ]}
    /\ Forall2 (fun name ty => exists a,
                  Client.field (fields r) name = Ok a /\ ty = type_string a)
         (Client.dtype_names r) tys
    /\ Forall2 (fun name buf => exists a,
                  Client.field (fields r) name = Ok a
                  /\ refusal a = None /\ buf = raw_bytes a)
         (Client.dtype_names r) bufs.
Proof.
  unfold Client._build_data. intros Hd.
  apply bind_Ok in Hd as (tys & Htys & Hd).
  apply bind_Ok in Hd as (bufs & Hbufs & Hd).
  injection Hd as <-. exists tys, bufs. split; [reflexivity|].
  apply mapM_result_Ok in Htys, Hbufs. split.
  - eapply Forall2_impl; [exact Htys|]. cbn. intros name ty Hty.
    apply bind_Ok in Hty as (a & Ha & Hty). injection Hty as <-. eauto.
  - eapply Forall2_impl; [exact Hbufs|]. cbn. intros name buf Hbuf.
    apply bind_Ok in Hbuf as (a & Ha & Hbuf).
    apply tobytes_accepted in Hbuf as [? ->]. eauto.
Qed.

(** The encoder returns when the buffer call refuses no column. *)
Lemma build_data_returns (r : recarray) (tbk : string) :
  (forall name a, name ∈ Client.dtype_names r ->
     Client.field (fields r) name = Ok a -> refusal a = None) ->
  exists d, Client._build_data r tbk = Ok d.
Proof.
  intros Hall. unfold Client._build_data.
  assert (Forall (fun name => exists a, Client.field (fields r) name = Ok a)
            (Client.dtype_names r)) as Hfields.
  { apply Forall_forall. intros name Hin. by apply field_of_name. }
  edestruct (mapM_result_Forall2
               (fun name => d ← Client.field (fields r) name;
                            Ok (replace "<" "" (str d))) (Client.dtype_names r))
    as (tys & -> & _).
  { eapply Forall_impl; [exact Hfields|]. intros name [a ->]. cbn. eauto. }
  edestruct (mapM_result_Forall2
               (fun name => a ← Client.field (fields r) name;
                            if PY2 then Client.bytes_of_buffer a
                            else Client.bytes_of_memoryview a)
               (Client.dtype_names r))
    as (bufs & -> & _).
  { apply Forall_forall. intros name Hin.
    destruct (field_of_name _ _ Hin) as [a Ha]. rewrite Ha. cbn.
    unfold Client.bytes_of_buffer, Client.bytes_of_memoryview.
    rewrite (Hall name a Hin Ha). destruct PY2; eauto. }
  cbn. eauto.
Qed.

(** The encoder raises only what the buffer call raises on a column. *)
Lemma build_data_raised (r : recarray) (tbk : string) (e : exn) :
  Client._build_data r tbk = Raise e ->
  exists name a, name ∈ Client.dtype_names r
    /\ Client.field (fields r) name = Ok a
    /\ refusal a = Some e.
Proof.
  unfold Client._build_data. intros Hd.
  apply bind_Raise in Hd as [Htys | (tys & _ & Hd)].
  - apply mapM_result_Raise in Htys as (name & Hin & Hname).
    destruct (field_of_name _ _ Hin) as [a Ha]. rewrite Ha in Hname.
    discriminate.
  - apply bind_Raise in Hd as [Hbufs | (bufs & _ & Hd)]; [|discriminate].
    apply mapM_result_Raise in Hbufs as (name & Hin & Hname).
    destruct (field_of_name _ _ Hin) as [a Ha]. rewrite Ha in Hname.
    cbn in Hname. exists name, a. split; [assumption|]. split; [assumption|].
    revert Hname. unfold Client.bytes_of_buffer, Client.bytes_of_memoryview.
    destruct PY2, (refusal a); try discriminate; by intros [= <-].
Qed.

End Payload.

Section PayloadTheorems.
Context `{!Runtime}.

(** C5. In every payload that the encoder returns, [types], [names]
    and [data] have one entry per declared field; entry [i] of each is
    about the field named by the i-th declared name, which with
    distinct names is the i-th column; [length] is [len(recarray)],
    [startindex] is [{tbk: 0}] and [lengths] is [{tbk: len(recarray)}]. *)
Theorem build_data_columns_aligned (r : recarray) (tbk : string)
    (d : Wire.dataset) :
  Client._build_data r tbk = Ok d ->
  length (Wire.types d) = length (fields r)
  /\ length (Wire.names d) = length (fields r)
  /\ length (Wire.data d) = length (fields r)
  /\ (forall i name, Client.dtype_names r !! i = Some name ->
        exists a, Client.field (fields r) name = Ok a
          /\ Wire.names d !! i = Some name
          /\ Wire.types d !! i = Some (type_string a)
          /\ Wire.data d !! i = Some (raw_bytes a))
  /\ (NoDup (Client.dtype_names r) ->
      forall i name a, fields r !! i = Some (name, a) ->
        Wire.names d !! i = Some name
        /\ Wire.types d !! i = Some (type_string a)
        /\ Wire.data d !! i = Some (raw_bytes a))
  /\ Wire.length d = len r
  /\ Wire.startindex d = {[ tbk := 0%nat ]}
  /\ Wire.lengths d = {[ tbk := len r ]}.
Proof.
  intros Hd.
  destruct (build_data_returned r tbk d Hd) as (tys & bufs & -> & Htys & Hbufs).
  cbn.
  assert (length (Client.dtype_names r) = length (fields r)) as Hlen
    by apply length_fmap.
  assert (forall i name, Client.dtype_names r !! i = Some name ->
            exists a, Client.field (fields r) name = Ok a
              /\ Client.dtype_names r !! i = Some name
              /\ tys !! i = Some (type_string a)
              /\ bufs !! i = Some (raw_bytes a)) as Hby_name.
  { intros i name Hi.
    destruct (Forall2_lookup_l _ _ _ _ _ Htys Hi) as (ty & Hty & a & Ha & ->).
    destruct (Forall2_lookup_l _ _ _ _ _ Hbufs Hi)
      as (buf & Hbuf & a' & Ha' & _ & ->).
    exists a. rewrite Ha in Ha'. injection Ha' as <-. auto. }
  split; [by rewrite <- (Forall2_length _ _ _ Htys)|].
  split; [assumption|].
  split; [by rewrite <- (Forall2_length _ _ _ Hbufs)|].
  split; [assumption|].
  split; [|auto].
  intros Hnd i name a Hi.
  assert (Client.dtype_names r !! i = Some name) as Hname.
  { unfold Client.dtype_names. by rewrite list_lookup_fmap, Hi. }
  destruct (Hby_name i name Hname) as (a' & Ha' & ? & ? & ?).
  rewrite (field_of_index _ _ _ _ Hnd Hi) in Ha'. injection Ha' as <-. auto.
Qed.

(** C1, as the encoder works.  In every payload that the encoder
    returns for a structured array, the entry of [types] for a column
    is the column's [dtype.str] with every ['<'] removed: ['f4'] for
    float32, ['f8'] for float64, ['i4'] for int32 and ['i8'] for int64
    on a little-endian machine.  The encoder looks at no table of
    types: it returns whenever the buffer call refuses no column,
    whatever the dtypes are, and when it raises, it raises the error of
    that call on a column it refuses. *)
Theorem build_data_type_strings (r : recarray) (tbk : string) :
  (forall d, Client._build_data r tbk = Ok d ->
     forall i name, Client.dtype_names r !! i = Some name ->
       exists a, Client.field (fields r) name = Ok a
         /\ Wire.types d !! i = Some (replace "<" "" (str a)))
  /\ ((forall name a, name ∈ Client.dtype_names r ->
         Client.field (fields r) name = Ok a -> refusal a = None) ->
      exists d, Client._build_data r tbk = Ok d)
  /\ (forall e, Client._build_data r tbk = Raise e ->
        exists name a, name ∈ Client.dtype_names r
          /\ Client.field (fields r) name = Ok a
          /\ refusal a = Some e)
  /\ replace "<" "" "<f4" = "f4" /\ replace "<" "" "<f8" = "f8"
  /\ replace "<" "" "<i4" = "i4" /\ replace "<" "" "<i8" = "i8".
Proof.
  split; [|split; [apply build_data_returns|split;
                   [apply build_data_raised | by repeat split]]].
  intros d Hd i name Hi.
  destruct (build_data_returned r tbk d Hd) as (tys & bufs & -> & Htys & _).
  cbn.
  destruct (Forall2_lookup_l _ _ _ _ _ Htys Hi) as (ty & Hty & a & Ha & ->).
  eauto.
Qed.

End PayloadTheorems.

Lemma ticks_structured : structured Examples.ticks.
Proof.
  split.
  - cbn. apply NoDup_cons. split; [|apply NoDup_singleton].
    intros Hin. apply list_elem_of_singleton in Hin. discriminate.
  - repeat constructor.
Defined.

Lemma build_data_columns_aligned_witness :
  exists d, @Client._build_data Examples.python3 Examples.ticks "TEST/1Min/TICK" = Ok d
    /\ Wire.names d !! 1%nat = Some "flag"
    /\ Wire.types d !! 1%nat = Some "|u1"
    /\ Wire.data d !! 1%nat = Some [x01; x00].
Proof.
  eexists. split; [reflexivity|].
  destruct (@build_data_columns_aligned Examples.python3 Examples.ticks
              "TEST/1Min/TICK" _ eq_refl) as (_ & _ & _ & _ & Hcol & _).
  exact (Hcol (proj1 ticks_structured) 1%nat "flag"
           (mkArray "|u1" [[x01]; [x00]] None) eq_refl).
Defined.

Lemma build_data_type_strings_witness :
  (exists d,
     @Client._build_data Examples.python3 Examples.ticks "TEST/1Min/TICK" = Ok d
     /\ exists a, Client.field (fields Examples.ticks) "price" = Ok a
          /\ Wire.types d !! 0%nat = Some (replace "<" "" (str a)))
  /\ (exists name a, name ∈ Client.dtype_names Examples.stamped
        /\ Client.field (fields Examples.stamped) name = Ok a
        /\ refusal a = Some Examples.no_buffer_format).
Proof.
  destruct (@build_data_type_strings Examples.python3 Examples.ticks
              "TEST/1Min/TICK") as (Hty & _).
  destruct (@build_data_type_strings Examples.python3 Examples.stamped
              "TEST/1Min/TICK") as (_ & _ & Herr & _).
  split.
  - eexists. split; [reflexivity|].
    exact (Hty _ eq_refl 0%nat "price" eq_refl).
  - exact (Herr Examples.no_buffer_format eq_refl).
Defined.

(** C1 as stated, on a batch with a float32 and a uint8 column: the
    entries of [types] are ['f4'] and ['|u1'], not the code ['f'] of
    the table, and the column the table does not know raises nothing. *)
Lemma type_codes_not_emitted :
  @Client._build_data Examples.python3 Examples.ticks "TEST/1Min/TICK"
    = Ok (Wire.mkDataset ["f4"; "|u1"] ["price"; "flag"]
            [[x00; x00; x80; x3f; x00; x00; x00; x40]; [x01; x00]] 2
            {[ "TEST/1Min/TICK" := 0%nat ]} {[ "TEST/1Min/TICK" := 2%nat ]})
  /\ data_type_conv !! "<f4" = Some "f"
  /\ data_type_conv !! "|u1" = None.
Proof. repeat split; reflexivity. Qed.

(** ** The setter *)

Section Setter.
Context `{!Runtime}.

(** C6, as the setter works.  While [set] is the method, a name that is
    no attribute of the spec is rejected with AttributeError and no
    spec is produced; setting any of the six optional fields leaves the
    bucket key as it was; and ['tbk'] is accepted like any other
    attribute, the value given becoming the bucket key. *)
Theorem set_rejects_unknown_and_keeps_bucket_key (self : Params) (val : pyval) :
  attrs self !! "set" = None ->
  (forall key, Params.hasattr self key = false ->
     Params.set self key val = raise AttributeError)
  /\ (forall key,
        key ∈ ["key_category"; "limit"; "limit_from_start"; "functions"] ->
        exists self', Params.set self key val = Ok self'
          /\ tbk self' = tbk self)
  /\ (forall key t, key ∈ ["start"; "end"] -> get_timestamp val = Ok t ->
        exists self', Params.set self key val = Ok self'
          /\ tbk self' = tbk self)
  /\ (exists self', Params.set self "tbk" val = Ok self' /\ tbk self' = val).
Proof.
  intros Hset. unfold Params.set. rewrite Hset. cbn [bool_decide decide_rel].
  split; [|split; [|split]].
  - intros key ->. reflexivity.
  - intros key Hkey.
    repeat (apply elem_of_cons in Hkey as [-> | Hkey]);
      [eexists; split; reflexivity..|].
    by apply elem_of_nil in Hkey.
  - intros key t Hkey Ht.
    repeat (apply elem_of_cons in Hkey as [-> | Hkey]);
      [cbn - [get_timestamp]; rewrite Ht; eexists; split; reflexivity..|].
    by apply elem_of_nil in Hkey.
  - eexists. split; reflexivity.
Qed.

End Setter.

Lemma set_rejects_unknown_and_keeps_bucket_key_witness :
  @Params.set Examples.python3 Examples.tsla "symbol" (PInt 5)
    = raise AttributeError
  /\ (exists self', @Params.set Examples.python3 Examples.tsla "limit" (PInt 5)
        = Ok self' /\ tbk self' = PStr "TSLA/1Min/OHLCV").
Proof.
  destruct (@set_rejects_unknown_and_keeps_bucket_key Examples.python3
              Examples.tsla (PInt 5) eq_refl) as (Hunknown & Hfield & _).
  split.
  - exact (Hunknown "symbol" eq_refl).
  - apply (Hfield "limit"). apply list_elem_of_further, list_elem_of_here.
Defined.

(** C6 as stated, at the key ['tbk']: the setter replaces the bucket
    key computed at construction.  It also accepts ['__repr__'], which
    is no field of the spec. *)
Lemma set_replaces_bucket_key :
  tbk Examples.tsla = PStr "TSLA/1Min/OHLCV"
  /\ @Params.set Examples.python3 Examples.tsla "tbk" (PStr "IBM/1D/TICK")
       = Ok (mkParams (PStr "IBM/1D/TICK") PNone None None (PInt 10)
               PNone PNone ∅)
  /\ @Params.set Examples.python3 Examples.tsla "__repr__" (PInt 1)
       = Ok (mkParams (PStr "TSLA/1Min/OHLCV") PNone None None (PInt 10)
               PNone PNone {[ "__repr__" := PInt 1 ]}).
Proof. repeat split; reflexivity. Qed.

(** ** Writing *)

Section Write.
Context `{!Runtime}.

(** C8, as [write] works.  When the transport raises
    [requests.exceptions.ConnectionError] or a subclass of it, [write]
    raises [requests.exceptions.ConnectionError] itself with the
    message ["Could not contact server"] in place of the transport's
    text, so the two texts differ unless the transport already said
    exactly that. *)
Theorem write_replaces_connection_error (self : Client) (r : recarray)
    (tbk : string) (isvariablelength : bool) (d : Wire.dataset) (e : exn) :
  Client._build_data r tbk = Ok d ->
  rpc_call self "DataService.Write"
    (Wire.WriteRequests [Wire.mkWriteRequest d isvariablelength]) = Raise e ->
  is_ConnectionError (exn_cls e) = true ->
  exists e', Client.write self r tbk isvariablelength = Raise e'
    /\ exn_cls e' = ConnectionError
    /\ exn_msg e' = "Could not contact server"
    /\ (exn_msg e <> "Could not contact server" -> exn_msg e' <> exn_msg e).
Proof.
  intros Hd Hcall Hcls. unfold Client.write. rewrite Hd. cbn.
  rewrite Hcall, Hcls. eexists. split; [reflexivity|]. cbn. auto.
Qed.

End Write.

Lemma write_replaces_connection_error_witness :
  exists e', @Client.write Examples.python3
               (mkClient "http://localhost:5993/rpc"
                  (fun _ _ => Raise (Exn ConnectTimeout "timed out")))
               Examples.ticks "TEST/1Min/TICK" false = Raise e'
    /\ exn_cls e' = ConnectionError
    /\ exn_msg e' = "Could not contact server"
    /\ (exn_msg (Exn ConnectTimeout "timed out") <> "Could not contact server" ->
        exn_msg e' <> exn_msg (Exn ConnectTimeout "timed out")).
Proof.
  exact (@write_replaces_connection_error Examples.python3
           (mkClient "http://localhost:5993/rpc"
              (fun _ _ => Raise (Exn ConnectTimeout "timed out")))
           Examples.ticks "TEST/1Min/TICK" false _
           (Exn ConnectTimeout "timed out") eq_refl eq_refl eq_refl).
Defined.

(** C8 as stated: the error raised is of the transport's own class, its
    message is not ["could not contact server"], and it is the
    transport's text when the transport said the same. *)
Lemma connection_error_same_class_and_text :
  @Client.write Examples.python3 (Examples.unreachable "Connection refused")
     Examples.ticks "TEST/1Min/TICK" false
    = Raise (Exn ConnectionError "Could not contact server")
  /\ "Could not contact server" <> "could not contact server"
  /\ @Client.write Examples.python3
       (Examples.unreachable "Could not contact server")
       Examples.ticks "TEST/1Min/TICK" false
     = Raise (Exn ConnectionError "Could not contact server").
Proof. split; [reflexivity | split; [discriminate | reflexivity]]. Qed.

(** ** The stream endpoint *)

Section StreamEndpoint.

Lemma strip_prefix_app (p x : string) : Re.strip_prefix p (p +:+ x) = Some x.
Proof.
  induction p as [|a p IH]; [by destruct x|].
  rewrite string_app_cons. cbn. by rewrite Ascii.eqb_refl.
Qed.

(** A prefix without ['/'] that matches in front of a tail starting
    with ['/'] lies within the part before the tail. *)
Lemma strip_prefix_before_slash (p body t rest : string) :
  (forall q1 q2, p <> q1 +:+ String "/" q2) ->
  t = "" \/ (exists t', t = String "/" t') ->
  Re.strip_prefix p (body +:+ t) = Some rest ->
  exists mid, body = p +:+ mid /\ rest = mid +:+ t.
Proof.
  intros Hslash Ht. revert body Hslash.
  induction p as [|a p IH]; intros body Hslash.
  - cbn. destruct (body +:+ t) eqn:E; intros [= <-]; exists body; by rewrite E.
  - destruct body as [|b body].
    + rewrite string_app_nil_l.
      destruct Ht as [-> | [t' ->]]; [discriminate|]. cbn.
      destruct (Ascii.eqb_spec a "/") as [->|]; [|discriminate].
      exfalso. exact (Hslash "" p eq_refl).
    + rewrite string_app_cons. cbn.
      destruct (Ascii.eqb_spec a b) as [->|]; [|discriminate].
      intros Hrest. destruct (IH body) as (mid & -> & ->); [|assumption|].
      * intros q1 q2 ->. exact (Hslash (String b q1) q2 eq_refl).
      * exists mid. by rewrite string_app_cons.
Qed.

Lemma http_has_no_slash (q1 q2 : string) : "http" <> q1 +:+ String "/" q2.
Proof.
  destruct q1 as [|? [|? [|? [|? [|? ?]]]]]; cbn; try discriminate;
    intros [= ? ?]; subst; discriminate.
Qed.

(** The inner substitution touches nothing but a ['/rpc'] at the end,
    or one followed by the newline that ends the string. *)
Lemma sub_end_rpc (s : string) :
  exists body tail tail',
    s = body +:+ tail
    /\ Re.sub_end "/rpc" "/ws" s = body +:+ tail'
    /\ ((tail = "/rpc" /\ tail' = "/ws")
        \/ (tail = "/rpc" +:+ Re.newline /\ tail' = "/ws" +:+ Re.newline)
        \/ (tail = "" /\ tail' = ""
            /\ ~ ends_with s "/rpc" /\ ~ ends_with s ("/rpc" +:+ Re.newline))).
Proof.
  induction s as [|c s (body & tail & tail' & Hs & Hsub & Htail)].
  - exists "", "", "". split; [reflexivity|]. split; [reflexivity|].
    right. right. repeat split; intros [[|? ?] Hp]; discriminate.
  - unfold Re.sub_end. fold Re.sub_end.
    destruct (String.eqb_spec (String c s) "/rpc") as [->|Hne1].
    { exists "", "/rpc", "/ws". auto. }
    destruct (String.eqb_spec (String c s) ("/rpc" +:+ Re.newline)) as [->|Hne2].
    { exists "", ("/rpc" +:+ Re.newline), ("/ws" +:+ Re.newline).
      split; [reflexivity|]. split; [reflexivity|]. right. left. by split. }
    exists (String c body), tail, tail'.
    rewrite !string_app_cons, <- Hs, <- Hsub.
    split; [reflexivity|]. split; [reflexivity|].
    destruct Htail as [?|[?|(-> & -> & Hno1 & Hno2)]]; [auto | auto |].
    right. right. repeat split.
    + intros [[|a p] Hp]; [by apply Hne1|].
      rewrite string_app_cons in Hp. injection Hp as _ Hp.
      apply Hno1. by exists p.
    + intros [[|a p] Hp]; [by apply Hne2|].
      rewrite string_app_cons in Hp. injection Hp as _ Hp.
      apply Hno2. by exists p.
Qed.

(** C9, with the anchor as the pattern has it.  The two endpoints of
    the specification derive as stated.  For every endpoint, the
    derived one differs from it in at most two places: a leading
    ['http'] becomes ['ws'], and a ['/rpc'] that ends the string, or
    that only a final newline follows, becomes ['/ws']; everything in
    between is kept as it is. *)
Theorem stream_rewrites_only_the_ends :
  (forall rpc, Client.stream (mkClient "http://localhost:5993/rpc" rpc)
     = "ws://localhost:5993/ws")
  /\ (forall rpc, Client.stream (mkClient "https://host/rpc" rpc)
     = "wss://host/ws")
  /\ forall self : Client,
       exists scheme scheme' body tail tail',
         endpoint self = scheme +:+ body +:+ tail
         /\ Client.stream self = scheme' +:+ body +:+ tail'
         /\ ((scheme = "http" /\ scheme' = "ws")
             \/ (scheme = "" /\ scheme' = ""
                 /\ Re.strip_prefix "http" (endpoint self) = None))
         /\ ((tail = "/rpc" /\ tail' = "/ws")
             \/ (tail = "/rpc" +:+ Re.newline /\ tail' = "/ws" +:+ Re.newline)
             \/ (tail = "" /\ tail' = ""
                 /\ ~ ends_with (endpoint self) "/rpc"
                 /\ ~ ends_with (endpoint self) ("/rpc" +:+ Re.newline))).
Proof.
  split; [reflexivity|]. split; [reflexivity|].
  intros [s rpc]. unfold Client.stream. cbn [endpoint].
  destruct (sub_end_rpc s) as (body & tail & tail' & Hs & -> & Htail).
  assert (forall t, t = tail \/ t = tail' ->
            t = "" \/ exists t', t = String "/" t') as Hslash.
  { intros t Ht.
    destruct Htail as [[-> ->]|[[-> ->]|(-> & -> & _)]], Ht as [->| ->];
      eauto. }
  unfold Re.sub_start.
  destruct (Re.strip_prefix "http" (body +:+ tail')) as [rest|] eqn:Hpre.
  - apply strip_prefix_before_slash in Hpre as (mid & -> & ->);
      [|apply http_has_no_slash|auto].
    exists "http", "ws", mid, tail, tail'.
    subst s. rewrite string_app_assoc in *.
    split; [reflexivity|]. split; [reflexivity|].
    split; [by left | exact Htail].
  - exists "", "", body, tail, tail'. subst s.
    split; [reflexivity|]. split; [reflexivity|]. split; [|exact Htail].
    right. split; [reflexivity|]. split; [reflexivity|].
    destruct (Re.strip_prefix "http" (body +:+ tail)) as [rest|] eqn:Hpre';
      [|reflexivity].
    apply strip_prefix_before_slash in Hpre' as (mid & -> & ->);
      [|apply http_has_no_slash|auto].
    by rewrite string_app_assoc, strip_prefix_app in Hpre.
Qed.

End StreamEndpoint.

(** C9 as stated, on an endpoint read with its line end: the ['/rpc']
    is not at the end of the string and is rewritten all the same. *)
Lemma rpc_before_final_newline_is_rewritten :
  Client.stream (Examples.answering ("http://host/rpc" +:+ Re.newline))
    = "ws://host/ws" +:+ Re.newline
  /\ ~ ends_with ("http://host/rpc" +:+ Re.newline) "/rpc".
Proof.
  split; [reflexivity|]. intros [p Hp].
  rewrite !string_app_cons, string_app_nil_l in Hp. unfold Re.newline in Hp.
  do 16 (destruct p as [|? p];
         [ discriminate
         | rewrite string_app_cons in Hp; injection Hp as _ Hp ]).
  destruct p; [discriminate | rewrite string_app_cons in Hp; discriminate].
Qed.

Lemma stream_rewrites_only_the_ends_witness :
  Client.stream (Examples.answering "https://host/rpc") = "wss://host/ws".
Proof.
  destruct stream_rewrites_only_the_ends as (_ & Hhttps & _).
  exact (Hhttps (fun _ _ => Ok PNone)).
Defined.

(** * Further properties *)

(** ** The constructor and the setter *)

Section ConstructorAndSetter.
Context `{!Runtime}.

Lemma set_needs_method (self : Params) key val self' :
  Params.set self key val = Ok self' -> attrs self !! "set" = None.
Proof.
  unfold Params.set. destruct (attrs self !! "set"); [discriminate | reflexivity].
Qed.

(** Passing the optional arguments to the constructor is the same as
    constructing with the defaults and calling the setter for each of
    them, also in which error is raised first. *)
Theorem init_is_defaults_then_set (symbols : pyval) (tf ag : string)
    (st en li lfs : pyval) :
  Params.__init__ symbols tf ag st en li lfs
  = (p ← Params.__init__ symbols tf ag PNone PNone PNone PNone;
     p ← Params.set p "start" st;
     p ← Params.set p "end" en;
     p ← Params.set p "limit" li;
     Params.set p "limit_from_start" lfs).
Proof.
  unfold Params.__init__.
  destruct (Params.join_symbols _) as [joined|e]; [|reflexivity].
  cbn - [get_timestamp]. change (get_timestamp PNone) with (Ok (@None Z)).
  cbn - [get_timestamp]. unfold Params.set. cbn - [get_timestamp].
  destruct (get_timestamp st) as [t1|e]; [|reflexivity].
  cbn - [get_timestamp].
  destruct (get_timestamp en) as [t2|e]; reflexivity.
Qed.

(** Setting a field twice keeps the last value only: after a first
    call that returned, a second call on the same field gives what it
    would have given on the original spec. *)
Theorem set_last_value_wins (self self1 : Params) (key : string)
    (v1 v2 : pyval) :
  key ∈ Params.instance_attrs ->
  Params.set self key v1 = Ok self1 ->
  Params.set self1 key v2 = Params.set self key v2.
Proof.
  intros Hkey H1. pose proof (set_needs_method _ _ _ _ H1) as Hset.
  revert H1. unfold Params.set. rewrite Hset.
  cbn [bool_decide decide_rel].
  repeat (apply elem_of_cons in Hkey as [-> | Hkey]);
    [ .. | by apply elem_of_nil in Hkey ];
    cbn - [get_timestamp];
    try (destruct (get_timestamp v1) as [t1|]; cbn; [|discriminate]);
    intros [= <-]; cbn - [get_timestamp]; rewrite Hset;
    cbn - [get_timestamp];
    try (destruct (get_timestamp v2) as [t2|]); reflexivity.
Qed.

(** Calls of the setter on two different fields can be swapped: when
    both return in one order they return in the other, with the same
    spec at the end. *)
Theorem set_of_distinct_fields_commutes (self self1 self12 : Params)
    (k1 k2 : string) (v1 v2 : pyval) :
  k1 ∈ Params.instance_attrs -> k2 ∈ Params.instance_attrs -> k1 <> k2 ->
  Params.set self k1 v1 = Ok self1 ->
  Params.set self1 k2 v2 = Ok self12 ->
  exists self2, Params.set self k2 v2 = Ok self2
    /\ Params.set self2 k1 v1 = Ok self12.
Proof.
  intros Hk1 Hk2 Hne H1 H2.
  pose proof (set_needs_method _ _ _ _ H1) as Hset.
  revert H1 H2. unfold Params.set. rewrite Hset.
  cbn [bool_decide decide_rel].
  repeat (apply elem_of_cons in Hk1 as [-> | Hk1]);
    [ .. | by apply elem_of_nil in Hk1 ];
    (repeat (apply elem_of_cons in Hk2 as [-> | Hk2]);
     [ .. | by apply elem_of_nil in Hk2 ]);
    try congruence;
    cbn - [get_timestamp];
    try (destruct (get_timestamp v1) as [t1|]; cbn - [get_timestamp];
         [|discriminate]);
    intros [= <-]; cbn - [get_timestamp]; rewrite Hset;
    cbn - [get_timestamp];
    try (destruct (get_timestamp v2) as [t2|]; cbn - [get_timestamp];
         [|discriminate]);
    intros [= <-]; (eexists; split; [reflexivity|]);
    cbn - [get_timestamp]; rewrite Hset; cbn - [get_timestamp];
    rewrite ?Heqr; reflexivity.
Qed.

End ConstructorAndSetter.

Lemma set_last_value_wins_witness :
  @Params.set Examples.python3
     (mkParams (PStr "TSLA/1Min/OHLCV") PNone None None (PInt 5) PNone PNone ∅)
     "limit" PNone
  = @Params.set Examples.python3 Examples.tsla "limit" PNone.
Proof.
  apply (@set_last_value_wins Examples.python3 Examples.tsla _ "limit" (PInt 5)).
  - unfold Params.instance_attrs. do 4 apply list_elem_of_further.
    apply list_elem_of_here.
  - reflexivity.
Defined.

Lemma set_of_distinct_fields_commutes_witness :
  exists self2,
    @Params.set Examples.python3 Examples.tsla "start" (PInt 60) = Ok self2
    /\ @Params.set Examples.python3 self2 "limit" (PInt 5)
       = Ok (mkParams (PStr "TSLA/1Min/OHLCV") PNone (Some 60000000000) None
               (PInt 5) PNone PNone ∅).
Proof.
  apply (@set_of_distinct_fields_commutes Examples.python3 Examples.tsla
           (mkParams (PStr "TSLA/1Min/OHLCV") PNone None None (PInt 5)
              PNone PNone ∅)).
  - unfold Params.instance_attrs. do 4 apply list_elem_of_further.
    apply list_elem_of_here.
  - unfold Params.instance_attrs. do 2 apply list_elem_of_further.
    apply list_elem_of_here.
  - discriminate.
  - reflexivity.
  - reflexivity.
Defined.

(** ** Integer seconds of either sign *)

Section IntegerSeconds.
Context `{!Runtime}.

Lemma int_truediv_opp (a b : Z) :
  0 < a ->
  Division.int_of_float (Division.truediv (- a) b)
  = - Division.int_of_float (Division.truediv a b).
Proof.
  intros Ha. unfold Division.truediv.
  destruct (Z.leb_spec 0 (- a)); [lia|].
  destruct (Z.leb_spec 0 a); [|lia].
  rewrite Z.opp_involutive. unfold Division.int_of_float. cbn [Division.mant Division.expo].
  destruct (Z.leb_spec 0 (Division.expo (Division.truediv_pos a b))).
  - ring.
  - apply Z.quot_opp_l. apply Z.pow_nonzero; lia.
Qed.

(** Whole seconds before the epoch convert back exactly as well: for
    every integer [n] in the range of the timestamp type, of either
    sign, the nanoseconds of [n] seconds give [n] again under Python 2
    and under Python 3. *)
Theorem epoch_seconds_round_trip_signed (n : Z) :
  - max_seconds <= n <= max_seconds ->
  epoch_seconds (n * 10 ^ 9) = n.
Proof.
  intros Hn. destruct (Z.le_gt_cases 0 n) as [Hpos|Hneg].
  - apply epoch_seconds_of_seconds. lia.
  - pose proof (epoch_seconds_of_seconds (- n) ltac:(lia)) as Hopp.
    revert Hopp. unfold epoch_seconds, Division.div.
    change (10 ^ 9) with 1000000000.
    destruct PY2; cbn [Division.int]; intros Hopp.
    + apply Z.div_mul. lia.
    + replace (n * 1000000000) with (- (- n * 1000000000)) by ring.
      rewrite int_truediv_opp by lia. lia.
Qed.

End IntegerSeconds.

Lemma epoch_seconds_round_trip_signed_witness :
  @epoch_seconds Examples.python3 (-86400 * 10 ^ 9) = -86400.
Proof.
  apply (@epoch_seconds_round_trip_signed Examples.python3 (-86400)).
  unfold max_seconds. lia.
Defined.

(** ** How far the float division can be off *)

Section ConversionError.
Context `{!Runtime}.

(** For every instant from the epoch on that a timestamp can hold, the
    seconds put on the wire are the whole seconds of the instant or one
    more, under either interpreter: the float division can round up
    across a second, never further and never down. *)
Theorem epoch_seconds_within_one_second (value : Z) :
  0 <= value < 2 ^ 63 ->
  value / 10 ^ 9 <= epoch_seconds value <= value / 10 ^ 9 + 1.
Proof.
  intros Hv. unfold epoch_seconds, Division.div.
  change (10 ^ 9) with 1000000000.
  destruct PY2; cbn [Division.int]; [lia|].
  unfold Division.truediv. destruct (Z.leb_spec 0 value); [|lia].
  unfold Division.truediv_pos.
  destruct (Z.eqb_spec value 0) as [->|Hne];
    [vm_compute; split; discriminate|].
  pose proof (quotient_exponent_le value 1000000000) as He.
  change (Z.log2 1000000000) with 29 in He.
  assert (Z.log2 value < 63) as Hlog
    by (apply Z.log2_lt_pow2; lia).
  set (e := Division.quotient_exponent value 1000000000) in *.
  unfold Division.int_of_float. cbn [Division.mant Division.expo].
  destruct (Z.leb_spec 0 e); [lia|].
  rewrite (Z.max_r 0 (- e)), (Z.max_l 0 e), Z.pow_0_r, Z.mul_1_r by lia.
  assert (0 < 2 ^ (- e)) as HS by (apply Z.pow_pos_nonneg; lia).
  set (S := 2 ^ (- e)) in *.
  pose proof (Z.div_mod value 1000000000 ltac:(lia)) as Hdiv.
  pose proof (Z.mod_pos_bound value 1000000000 ltac:(lia)) as Hmod.
  set (k := value / 1000000000) in *.
  assert (0 <= k) by (apply Z.div_pos; lia).
  destruct (round_half_even_mono_bounds (value * S) 1000000000
              (k * S) ((k + 1) * S)) as [Hlo Hhi]; [lia | nia | nia |].
  set (m := Division.round_half_even (value * S) 1000000000) in *.
  rewrite Z.quot_div_nonneg by nia. split.
  - apply Z.div_le_lower_bound; lia.
  - apply Z.div_le_upper_bound; lia.
Qed.

End ConversionError.

Lemma epoch_seconds_within_one_second_witness :
  1577836800999999999 / 10 ^ 9
    <= @epoch_seconds Examples.python3 1577836800999999999
    <= 1577836800999999999 / 10 ^ 9 + 1.
Proof.
  apply (@epoch_seconds_within_one_second Examples.python3 1577836800999999999).
  lia.
Defined.

(** ** What a request holds, and what setting a field does to it *)

Section RequestContents.
Context `{!Runtime}.

Lemma lookup_insert_wire (req : gmap string pyval) (k w : string) (v : pyval) :
  <[k := v]> req !! w = if String.eqb w k then Some v else req !! w.
Proof.
  destruct (String.eqb_spec w k) as [->|Hne].
  - apply lookup_insert_eq.
  - by rewrite lookup_insert_ne.
Qed.

(** The whole content of a built request, key by key. *)
Lemma build_req_holds_exactly (param : Params) (req : gmap string pyval) :
  Client.build_req param = Ok req ->
  forall w, req !! w = wire_lookup param w.
Proof.
  unfold Client.build_req, wire_lookup, if_set, epoch_seconds, Timestamp_value.
  intros Hreq w. revert Hreq.
  destruct (is_None (key_category param)), (start param) as [t1|],
    (end_ param) as [t2|],
    (is_None (limit_from_start param)), (is_None (functions param));
    cbn [negb fmap option_fmap option_map];
    try (destruct ((int64_min <=? t1) && (t1 <=? int64_max));
         cbn [mbind result_bind]; [|discriminate]);
    try (destruct ((int64_min <=? t2) && (t2 <=? int64_max));
         cbn [mbind result_bind]; [|discriminate]);
    (destruct (is_None (limit param)); cbn [negb mbind result_bind];
     [ | destruct (py_int (limit param)) as [n|e]; cbn [mbind result_bind];
         [|discriminate] ];
     intros [= <-]; rewrite ?lookup_insert_wire;
     rewrite lookup_singleton;
     repeat match goal with
            | |- context [String.eqb w ?k] => destruct (String.eqb_spec w k); subst
            end; try reflexivity; try congruence; try discriminate;
     case_decide; congruence).
Qed.

(** A built request has no key besides the seven wire keys, and the
    attributes that the setter has added to the spec beyond its fields
    never reach it. *)
Theorem build_req_only_wire_keys (param : Params) (req : gmap string pyval) :
  Client.build_req param = Ok req ->
  (forall w, w ∉ wire_keys -> req !! w = None)
  /\ (forall extra : gmap string pyval,
        Client.build_req
          (mkParams (tbk param) (key_category param) (start param) (end_ param)
             (limit param) (limit_from_start param) (functions param) extra)
        = Ok req).
Proof.
  intros Hreq. split; [|intros extra; exact Hreq].
  intros w Hw. rewrite (build_req_holds_exactly _ _ Hreq). unfold wire_lookup.
  repeat match goal with
         | |- context [String.eqb w ?k] =>
             destruct (String.eqb_spec w k) as [->|_];
               [exfalso; apply Hw; unfold wire_keys; set_solver|]
         end.
  reflexivity.
Qed.

(** Setting a field and then building: the wire key of the field holds
    the value just set, coerced as the builder coerces it, and is
    absent when the value set is [None]. *)
Theorem set_then_build (self self' : Params) (v : pyval)
    (req : gmap string pyval) :
  (Params.set self "key_category" v = Ok self' ->
   Client.build_req self' = Ok req ->
   req !! "key_category" = if_set v v)
  /\ (Params.set self "functions" v = Ok self' ->
      Client.build_req self' = Ok req ->
      req !! "functions" = if_set v v)
  /\ (Params.set self "limit_from_start" v = Ok self' ->
      Client.build_req self' = Ok req ->
      req !! "limit_from_start" = if_set v (PBool (py_bool v)))
  /\ (Params.set self "limit" v = Ok self' ->
      Client.build_req self' = Ok req ->
      (is_None v = true /\ req !! "limit_record_count" = None)
      \/ (is_None v = false
          /\ exists n, py_int v = Ok n
               /\ req !! "limit_record_count" = Some (PInt n)))
  /\ (Params.set self "start" v = Ok self' ->
      Client.build_req self' = Ok req ->
      exists t, get_timestamp v = Ok t
        /\ req !! "epoch_start" = (fun ns => PInt (epoch_seconds ns)) <$> t)
  /\ (Params.set self "end" v = Ok self' ->
      Client.build_req self' = Ok req ->
      exists t, get_timestamp v = Ok t
        /\ req !! "epoch_end" = (fun ns => PInt (epoch_seconds ns)) <$> t).
Proof.
  repeat split; intros Hset Hreq;
    pose proof (set_needs_method _ _ _ _ Hset) as Hmethod;
    revert Hset; unfold Params.set; rewrite Hmethod;
    cbn - [get_timestamp];
    try (destruct (get_timestamp v) as [t|]; cbn; [|discriminate]);
    intros [= <-];
    apply build_req_fields in Hreq as (_ & Hkc & Hs & He & Hl & Hlfs & Hf);
    cbn in *; eauto.
Qed.

(** Setting one optional field changes nothing else in the request:
    every wire key but the field's own holds what it held before. *)
Theorem set_then_build_keeps_other_keys (self self' : Params)
    (key : string) (v : pyval) (req0 req : gmap string pyval) :
  key ∈ optional_fields ->
  Params.set self key v = Ok self' ->
  Client.build_req self = Ok req0 ->
  Client.build_req self' = Ok req ->
  forall w, w <> wire_key key -> req !! w = req0 !! w.
Proof.
  intros Hkey Hset Hreq0 Hreq w Hw.
  rewrite (build_req_holds_exactly _ _ Hreq), (build_req_holds_exactly _ _ Hreq0).
  pose proof (set_needs_method _ _ _ _ Hset) as Hmethod.
  revert Hset. unfold Params.set. rewrite Hmethod.
  unfold optional_fields in Hkey.
  repeat (apply elem_of_cons in Hkey as [-> | Hkey]);
    [ .. | by apply elem_of_nil in Hkey ];
    cbn - [get_timestamp];
    try (destruct (get_timestamp v) as [t|]; cbn; [|discriminate]);
    intros [= <-]; unfold wire_lookup; cbn [tbk key_category start end_ limit
      limit_from_start functions attrs Params.setattr_time];
    cbn in Hw;
    repeat match goal with
           | |- context [String.eqb w ?k] =>
               destruct (String.eqb_spec w k) as [->|_]
           end; try reflexivity; congruence.
Qed.

End RequestContents.

Lemma build_req_only_wire_keys_witness :
  exists req, @Client.build_req Examples.python3 Examples.aapl_ibm = Ok req
    /\ req !! "tbk" = None.
Proof.
  eexists. split; [reflexivity|].
  destruct (@build_req_only_wire_keys Examples.python3 Examples.aapl_ibm _ eq_refl)
    as [Honly _].
  apply Honly. unfold wire_keys. intros Hin.
  repeat (apply elem_of_cons in Hin as [Hin | Hin]; [discriminate|]).
  by apply elem_of_nil in Hin.
Defined.

Lemma set_then_build_witness :
  exists self' req,
    @Params.set Examples.python3 Examples.tsla "limit_from_start" (PInt 0)
      = Ok self'
    /\ @Client.build_req Examples.python3 self' = Ok req
    /\ req !! "limit_from_start" = Some (PBool false).
Proof.
  eexists. eexists. split; [reflexivity|]. split; [reflexivity|].
  destruct (@set_then_build Examples.python3 Examples.tsla
              (mkParams (PStr "TSLA/1Min/OHLCV") PNone None None (PInt 10)
                 (PInt 0) PNone ∅) (PInt 0)
              {[ "destination" := PStr "TSLA/1Min/OHLCV";
                 "limit_record_count" := PInt 10;
                 "limit_from_start" := PBool false ]})
    as (_ & _ & Hlfs & _).
  exact (Hlfs eq_refl eq_refl).
Defined.

Lemma set_then_build_keeps_other_keys_witness :
  exists self' req0 req,
    @Params.set Examples.python3 Examples.tsla "start" (PInt 60) = Ok self'
    /\ @Client.build_req Examples.python3 Examples.tsla = Ok req0
    /\ @Client.build_req Examples.python3 self' = Ok req
    /\ req !! "limit_record_count" = req0 !! "limit_record_count".
Proof.
  eexists. eexists. eexists.
  split; [reflexivity|]. split; [reflexivity|]. split; [reflexivity|].
  apply (@set_then_build_keeps_other_keys Examples.python3 Examples.tsla
           (mkParams (PStr "TSLA/1Min/OHLCV") PNone (Some 60000000000) None
              (PInt 10) PNone PNone ∅)
           "start" (PInt 60)).
  - unfold optional_fields. apply list_elem_of_further, list_elem_of_here.
  - reflexivity.
  - reflexivity.
  - reflexivity.
  - discriminate.
Defined.

(** ** Building the requests of several specs *)

Section SeveralSpecs.
Context `{!Runtime}.

Lemma build_reqs_from (params : list Params) :
  forall reqs,
    Client.build_reqs reqs params
    = (fun new => reqs ++ new) <$> Client.build_reqs [] params.
Proof.
  induction params as [|param params IH]; intros reqs; cbn.
  - by rewrite app_nil_r.
  - destruct (Client.build_req param) as [req|e]; cbn; [|reflexivity].
    rewrite (IH (reqs ++ [req])), (IH [req]).
    destruct (Client.build_reqs [] params) as [new|e]; cbn; [|reflexivity].
    by rewrite <- app_assoc.
Qed.

Lemma build_reqs_app (l1 l2 : list Params) :
  Client.build_reqs [] (l1 ++ l2)
  = (r1 ← Client.build_reqs [] l1;
     r2 ← Client.build_reqs [] l2;
     Ok (r1 ++ r2)).
Proof.
  induction l1 as [|param l1 IH]; cbn.
  - destruct (Client.build_reqs [] l2); reflexivity.
  - destruct (Client.build_req param) as [req|e]; cbn; [|reflexivity].
    rewrite (build_reqs_from (l1 ++ l2)), (build_reqs_from l1), IH.
    destruct (Client.build_reqs [] l1) as [r1|e]; cbn; [|reflexivity].
    destruct (Client.build_reqs [] l2) as [r2|e]; cbn; reflexivity.
Qed.

(** The requests of a list of specs are those of its parts, one after
    the other; the first spec that cannot be built decides the error,
    whatever comes after it; and a single spec gives what the list of
    that one spec gives. *)
Theorem build_query_of_concatenation (l1 l2 : list Params) :
  (forall q1 q2,
     Client._build_query (Client.Many l1) = Ok q1 ->
     Client._build_query (Client.Many l2) = Ok q2 ->
     Client._build_query (Client.Many (l1 ++ l2))
     = Ok (Wire.QueryRequests (requests_of q1 ++ requests_of q2)))
  /\ (forall e,
     Client._build_query (Client.Many l1) = Raise e ->
     Client._build_query (Client.Many (l1 ++ l2)) = Raise e)
  /\ (forall q1 e,
     Client._build_query (Client.Many l1) = Ok q1 ->
     Client._build_query (Client.Many l2) = Raise e ->
     Client._build_query (Client.Many (l1 ++ l2)) = Raise e)
  /\ (forall param,
     Client._build_query (Client.One param)
     = Client._build_query (Client.Many [param])).
Proof.
  unfold Client._build_query, Client.as_list. rewrite build_reqs_app.
  destruct (Client.build_reqs [] l1) as [r1|e1];
    destruct (Client.build_reqs [] l2) as [r2|e2]; cbn;
    repeat split; try discriminate; try congruence;
    intros; simplify_eq; reflexivity.
Qed.

End SeveralSpecs.

Lemma build_query_of_concatenation_witness :
  @Client._build_query Examples.python3
    (Client.Many ([Examples.tsla] ++ [Examples.aapl_ibm]))
  = Ok (Wire.QueryRequests
          ([ {[ "destination" := PStr "TSLA/1Min/OHLCV";
                "limit_record_count" := PInt 10 ]} ]
           ++ [ {[ "destination" := PStr "AAPL,IBM/1D/TICK";
                   "epoch_start" := PInt 1577836800 ]} ])).
Proof.
  destruct (@build_query_of_concatenation Examples.python3
              [Examples.tsla] [Examples.aapl_ibm]) as [Happ _].
  exact (Happ (Wire.QueryRequests _) (Wire.QueryRequests _) eq_refl eq_refl).
Defined.

(** ** Sizes and type strings of the payload *)

Section PayloadContents.
Context `{!Runtime}.



Lemma replace_removes (c : ascii) (s : string) : ~ occurs c (replace c "" s).
Proof.
  induction s as [|c' s IH]; cbn; [tauto|].
  destruct (Ascii.eqb_spec c' c) as [->|Hne].
  - by rewrite string_app_nil_l.
  - cbn. tauto.
Qed.

Lemma replace_without (c : ascii) (s : string) :
  ~ occurs c s -> replace c "" s = s.
Proof.
  induction s as [|c' s IH]; cbn; [reflexivity|]. intros Hno.
  destruct (Ascii.eqb_spec c' c) as [->|Hne]; [tauto|].
  f_equal. tauto.
Qed.

(** No entry of [types] contains ['<']; and the type string of a column
    whose [dtype.str] has no ['<'] (big-endian ['>f4'], single-byte
    ['|u1']) is that string unchanged. *)
Theorem build_data_types_without_mark (r : recarray) (tbk : string)
    (d : Wire.dataset) :
  Client._build_data r tbk = Ok d ->
  Forall (fun ty => ~ occurs "<" ty) (Wire.types d)
  /\ (forall i name, Client.dtype_names r !! i = Some name ->
        exists a, Client.field (fields r) name = Ok a
          /\ (~ occurs "<" (str a) -> Wire.types d !! i = Some (str a))).
Proof.
  intros Hd.
  destruct (build_data_returned r tbk d Hd) as (tys & bufs & -> & Htys & _).
  cbn. split.
  - apply Forall_forall. intros ty Hty.
    apply list_elem_of_lookup in Hty as [i Hi].
    destruct (Forall2_lookup_r _ _ _ _ _ Htys Hi) as (name & _ & a & _ & ->).
    apply replace_removes.
  - intros i name Hi.
    destruct (Forall2_lookup_l _ _ _ _ _ Htys Hi) as (ty & Hty & a & Ha & ->).
    exists a. split; [assumption|]. intros Hno.
    unfold type_string in Hty. by rewrite replace_without in Hty.
Qed.

End PayloadContents.


Lemma build_data_types_without_mark_witness :
  exists d,
    @Client._build_data Examples.python3 Examples.ticks "TEST/1Min/TICK" = Ok d
    /\ Forall (fun ty => ~ occurs "<" ty) (Wire.types d).
Proof.
  eexists. split; [reflexivity|].
  exact (proj1 (@build_data_types_without_mark Examples.python3 Examples.ticks
                  "TEST/1Min/TICK" _ eq_refl)).
Defined.

(** ** Calls and their failures *)

Section Calls.
Context `{!Runtime}.

(** When the batch is encoded, [write] sends one request that holds
    the encoded batch and the flag, and hands back what the transport
    gives: its reply, or its error when that is no ConnectionError (an
    HTTPError or a read timeout, for instance).  When the encoder
    raises, [write] raises the same error and does not reach the
    transport: the outcome is the same whatever the client is. *)
Theorem write_passes_other_outcomes (self : Client) (r : recarray)
    (tbk : string) (isvariablelength : bool) :
  (forall d, Client._build_data r tbk = Ok d ->
     (forall reply,
        rpc_call self "DataService.Write"
          (Wire.WriteRequests [Wire.mkWriteRequest d isvariablelength])
          = Ok reply ->
        Client.write self r tbk isvariablelength = Ok reply)
     /\ (forall e,
          rpc_call self "DataService.Write"
            (Wire.WriteRequests [Wire.mkWriteRequest d isvariablelength])
            = Raise e ->
          is_ConnectionError (exn_cls e) = false ->
          Client.write self r tbk isvariablelength = Raise e))
  /\ (forall e, Client._build_data r tbk = Raise e ->
        forall other : Client,
          Client.write other r tbk isvariablelength = Raise e).
Proof.
  unfold Client.write. split.
  - intros d ->. cbn. split.
    + intros reply ->. reflexivity.
    + intros e -> ->. reflexivity.
  - intros e -> other. reflexivity.
Qed.

(** [_request] changes nothing in the outcome of the call, a
    ConnectionError included, and logs the error exactly when it is an
    HTTPError; so does [destroy], whose call carries the one request
    [{'key': tbk}]. *)
Theorem request_passes_every_outcome {K R : Type}
    (call : string -> K -> result R) (method : string) (query : K) :
  (Calls._request call method query).1 = call method query
  /\ (forall e, call method query = Raise e ->
        (Calls._request call method query).2
        = if Rpc.is_HTTPError (exn_cls e) then [e] else [])
  /\ (forall reply, call method query = Ok reply ->
        (Calls._request call method query).2 = [])
  /\ (forall (self : Client) (tbk : string),
        (Calls.destroy self tbk).1
        = rpc_call self "DataService.Destroy"
            (Wire.QueryRequests [ {[ "key" := PStr tbk ]} ])).
Proof.
  unfold Calls._request. split; [|split; [|split]].
  - destruct (call method query) as [reply|e]; [reflexivity|].
    destruct (Rpc.is_HTTPError (exn_cls e)); reflexivity.
  - intros e ->. destruct (Rpc.is_HTTPError (exn_cls e)); reflexivity.
  - intros reply ->. reflexivity.
  - intros self tbk. unfold Calls.destroy, Calls._request.
    destruct (rpc_call self _ _) as [reply|e]; [reflexivity|].
    destruct (Rpc.is_HTTPError (exn_cls e)); reflexivity.
Qed.

(** [query] does not reach the transport when a request cannot be
    built: it raises the builder's error whatever the client is.
    Otherwise it sends the built requests, gives the reply to
    [QueryReply], and raises the transport's error as it is,
    ConnectionError included, logging it when it is an HTTPError. *)
Theorem query_outcomes {Q : Type} (QueryReply : pyval -> result Q)
    (params : Client.params_arg) :
  (forall e, Client._build_query params = Raise e ->
     forall self, Calls.query QueryReply self params = (Raise e, []))
  /\ (forall q self reply,
        Client._build_query params = Ok q ->
        rpc_call self "DataService.Query" q = Ok reply ->
        Calls.query QueryReply self params = (QueryReply reply, []))
  /\ (forall q self e,
        Client._build_query params = Ok q ->
        rpc_call self "DataService.Query" q = Raise e ->
        Calls.query QueryReply self params
        = (Raise e, if Rpc.is_HTTPError (exn_cls e) then [e] else [])).
Proof.
  unfold Calls.query, Calls._request. split; [|split].
  - intros e -> self. reflexivity.
  - intros q self reply -> ->. reflexivity.
  - intros q self e -> ->.
    destruct (Rpc.is_HTTPError (exn_cls e)); reflexivity.
Qed.

(** [list_symbols] gives the entry [Results] of the reply whatever it
    is ([None] too), and the empty list when the reply has no such key;
    it fails only with the transport's own error or, on a reply that is
    no dictionary, with AttributeError, never with KeyError. *)
Theorem list_symbols_outcomes (call : string -> unit -> result Rpc.reply) :
  (forall d, call "DataService.ListSymbols" tt = Ok (Rpc.Mapping d) ->
     (Calls.list_symbols call).1 = Ok (default (PList []) (d !! "Results")))
  /\ (forall e, call "DataService.ListSymbols" tt = Raise e ->
        (Calls.list_symbols call).1 = Raise e)
  /\ (forall e, (Calls.list_symbols call).1 = Raise e ->
        call "DataService.ListSymbols" tt = Raise e
        \/ e = Exn AttributeError "").
Proof.
  unfold Calls.list_symbols, Calls._request.
  destruct (call "DataService.ListSymbols" tt) as [[d|v]|e0]; cbn.
  - repeat split; try discriminate.
    intros d' [= <-]. by destruct (d !! "Results").
    destruct (d !! "Results"); discriminate.
  - repeat split; try discriminate. intros e [= <-]. by right.
  - destruct (Rpc.is_HTTPError (exn_cls e0)); cbn;
      (repeat split; try discriminate; [by intros e [= <-] | intros e [= <-]; by left]).
Qed.

End Calls.

Lemma write_passes_other_outcomes_witness :
  @Client.write Examples.python3
    (mkClient "http://localhost:5993/rpc" (fun _ _ => Raise (Exn HTTPError "500")))
    Examples.ticks "TEST/1Min/TICK" false
  = Raise (Exn HTTPError "500")
  /\ @Client.write Examples.python3 (Examples.answering "http://localhost:5993/rpc")
       Examples.stamped "TEST/1Min/TICK" false
     = Raise Examples.no_buffer_format.
Proof.
  split.
  - destruct (@write_passes_other_outcomes Examples.python3
                (mkClient "http://localhost:5993/rpc"
                   (fun _ _ => Raise (Exn HTTPError "500")))
                Examples.ticks "TEST/1Min/TICK" false) as (Hsent & _).
    destruct (Hsent _ eq_refl) as (_ & Herr).
    exact (Herr (Exn HTTPError "500") eq_refl eq_refl).
  - destruct (@write_passes_other_outcomes Examples.python3
                (Examples.answering "http://localhost:5993/rpc")
                Examples.stamped "TEST/1Min/TICK" false) as (_ & Hraised).
    exact (Hraised Examples.no_buffer_format eq_refl (Examples.answering "http://localhost:5993/rpc")).
Defined.

Lemma request_passes_every_outcome_witness :
  (Calls._request (rpc_call (Examples.unreachable "refused"))
     "DataService.Query" (Wire.QueryRequests [])).2 = []
  /\ (Calls.destroy (Examples.unreachable "refused") "TEST/1Min/TICK").1
     = Raise (Exn ConnectionError "refused").
Proof.
  destruct (request_passes_every_outcome
              (rpc_call (Examples.unreachable "refused"))
              "DataService.Query" (Wire.QueryRequests []))
    as (_ & Hlog & _ & Hdestroy).
  split.
  - exact (Hlog (Exn ConnectionError "refused") eq_refl).
  - exact (Hdestroy (Examples.unreachable "refused") "TEST/1Min/TICK").
Defined.

Lemma query_outcomes_witness :
  @Calls.query Examples.python3 pyval Ok (Examples.unreachable "refused")
    (Client.One Examples.tsla)
  = (Raise (Exn ConnectionError "refused"), []).
Proof.
  destruct (@query_outcomes Examples.python3 pyval Ok (Client.One Examples.tsla))
    as (_ & _ & Herr).
  exact (Herr _ (Examples.unreachable "refused")
           (Exn ConnectionError "refused") eq_refl eq_refl).
Defined.

Lemma list_symbols_outcomes_witness :
  (Calls.list_symbols (fun _ _ => Ok (Rpc.Mapping {[ "Results" := PNone ]}))).1
    = Ok PNone
  /\ (Calls.list_symbols (fun _ _ => Ok (Rpc.Mapping ∅))).1 = Ok (PList []).
Proof.
  split.
  - destruct (list_symbols_outcomes
                (fun _ _ => Ok (Rpc.Mapping {[ "Results" := PNone ]})))
      as (Hres & _).
    exact (Hres _ eq_refl).
  - destruct (list_symbols_outcomes (fun _ _ => Ok (Rpc.Mapping ∅)))
      as (Hres & _).
    exact (Hres _ eq_refl).
Defined.

(** ** More on the stream endpoint *)

Section StreamAgain.

Lemma sub_end_after (c : ascii) (s : string) :
  c <> "/"%char ->
  Re.sub_end "/rpc" "/ws" (String c s) = String c (Re.sub_end "/rpc" "/ws" s).
Proof.
  intros Hc. unfold Re.sub_end at 1. fold Re.sub_end.
  destruct (String.eqb_spec (String c s) "/rpc") as [[= -> _]|_]; [done|].
  destruct (String.eqb_spec (String c s) ("/rpc" +:+ Re.newline))
    as [[= -> _]|_]; [done|].
  reflexivity.
Qed.

Lemma sub_end_app_rpc (x : string) :
  Re.sub_end "/rpc" "/ws" (x +:+ "/rpc") = x +:+ "/ws".
Proof.
  induction x as [|c x IH]; [reflexivity|].
  rewrite !string_app_cons. unfold Re.sub_end at 1. fold Re.sub_end.
  destruct (String.eqb_spec (String c (x +:+ "/rpc")) "/rpc") as [Heq|_].
  { exfalso. injection Heq as _ Heq.
    destruct x as [|? [|? [|? [|? ?]]]]; discriminate. }
  destruct (String.eqb_spec (String c (x +:+ "/rpc")) ("/rpc" +:+ Re.newline))
    as [Heq|_].
  { exfalso. injection Heq as _ Heq.
    destruct x as [|? [|? [|? [|? [|? ?]]]]]; discriminate. }
  by rewrite IH.
Qed.

(** Every endpoint of the form [http.../rpc] derives to [ws.../ws] with
    the part in between untouched, whatever it contains. *)
Theorem stream_of_http_rpc (mid : string)
    (rpc : string -> Wire.kwargs -> result pyval) :
  Client.stream (mkClient ("http" +:+ mid +:+ "/rpc") rpc)
  = "ws" +:+ mid +:+ "/ws".
Proof.
  unfold Client.stream. cbn [endpoint].
  rewrite <- string_app_assoc, sub_end_app_rpc, string_app_assoc.
  unfold Re.sub_start. by rewrite strip_prefix_app.
Qed.

Lemma strip_prefix_Some (p s rest : string) :
  Re.strip_prefix p s = Some rest -> s = p +:+ rest.
Proof.
  revert s. induction p as [|a p IH]; intros s.
  - rewrite string_app_nil_l. destruct s; cbn; congruence.
  - destruct s as [|b s]; cbn; [discriminate|].
    destruct (Ascii.eqb_spec a b) as [->|]; [|discriminate].
    intros Hs. rewrite string_app_cons. f_equal. auto.
Qed.

Lemma sub_end_without_slash (s : string) :
  ~ occurs "/" (Re.sub_end "/rpc" "/ws" s) -> Re.sub_end "/rpc" "/ws" s = s.
Proof.
  induction s as [|c s IH]; [reflexivity|].
  unfold Re.sub_end. fold Re.sub_end.
  destruct (String.eqb_spec (String c s) "/rpc") as [_|_].
  { intros Hno. exfalso. apply Hno. by left. }
  destruct (String.eqb_spec (String c s) ("/rpc" +:+ Re.newline)) as [_|_].
  { intros Hno. exfalso. apply Hno. by left. }
  cbn. intros Hno. f_equal. tauto.
Qed.

Lemma sub_end_idempotent (s : string) :
  Re.sub_end "/rpc" "/ws" (Re.sub_end "/rpc" "/ws" s)
  = Re.sub_end "/rpc" "/ws" s.
Proof.
  induction s as [|c s IH]; [reflexivity|].
  unfold Re.sub_end at 2 3. fold Re.sub_end.
  destruct (String.eqb_spec (String c s) "/rpc") as [_|Hne1]; [reflexivity|].
  destruct (String.eqb_spec (String c s) ("/rpc" +:+ Re.newline))
    as [_|Hne2]; [reflexivity|].
  unfold Re.sub_end at 1. fold Re.sub_end.
  destruct (String.eqb_spec (String c (Re.sub_end "/rpc" "/ws" s)) "/rpc")
    as [Heq|_].
  { exfalso. injection Heq as -> Heq. apply Hne1. f_equal.
    rewrite <- Heq. symmetry. apply sub_end_without_slash.
    rewrite Heq. cbn. intros [|[|[|[]]]]; discriminate. }
  destruct (String.eqb_spec (String c (Re.sub_end "/rpc" "/ws" s))
              ("/rpc" +:+ Re.newline)) as [Heq|_].
  { exfalso. injection Heq as -> Heq. apply Hne2.
    change ("/rpc" +:+ Re.newline) with (String "/" ("rpc" +:+ Re.newline)).
    f_equal. rewrite <- Heq. symmetry. apply sub_end_without_slash.
    rewrite Heq. cbn. intros [|[|[|[|[]]]]]; discriminate. }
  by rewrite IH.
Qed.

(** Deriving twice is deriving once: the derived endpoint has no
    leading ['http'] and no ['/rpc'] at its end left to rewrite. *)
Theorem stream_is_idempotent (self : Client)
    (rpc : string -> Wire.kwargs -> result pyval) :
  Client.stream (mkClient (Client.stream self) rpc) = Client.stream self.
Proof.
  unfold Client.stream. cbn [endpoint].
  pose proof (sub_end_idempotent (endpoint self)) as Hfix.
  set (x := Re.sub_end "/rpc" "/ws" (endpoint self)) in *.
  unfold Re.sub_start at 2 3.
  destruct (Re.strip_prefix "http" x) as [rest|] eqn:Hpre.
  - apply strip_prefix_Some in Hpre. subst x. rewrite Hpre in Hfix.
    change ("http" +:+ rest)
      with (String "h" (String "t" (String "t" (String "p" rest)))) in Hfix.
    rewrite !sub_end_after in Hfix by discriminate.
    injection Hfix as Hrest.
    change ("ws" +:+ rest) with (String "w" (String "s" rest)).
    rewrite !sub_end_after, Hrest by discriminate.
    reflexivity.
  - rewrite Hfix. unfold Re.sub_start. by rewrite Hpre.
Qed.

End StreamAgain.

Lemma stream_is_idempotent_witness :
  Client.stream (Examples.answering "ws://localhost:5993/ws")
  = "ws://localhost:5993/ws".
Proof.
  exact (stream_is_idempotent (Examples.answering "http://localhost:5993/rpc")
           (fun _ _ => Ok PNone)).
Defined.

(** ** Edge cases of the constructor *)

Section ConstructorEdges.
Context `{!Runtime}.

(** An empty collection of symbols is accepted and gives a bucket key
    with nothing before the first slash; a set of symbols is accepted
    like a list, its symbols joined in the order in which the set is
    iterated; a symbols argument that is neither a string nor a list,
    tuple or set raises TypeError, before the start and end values are
    looked at. *)
Theorem init_edge_cases (tf ag : string) (st en li lfs : pyval) :
  (forall t1 t2, get_timestamp st = Ok t1 -> get_timestamp en = Ok t2 ->
     (exists p, Params.__init__ (PList []) tf ag st en li lfs = Ok p
        /\ tbk p = PStr ("/" +:+ tf +:+ "/" +:+ ag))
     /\ (forall l : list string,
          exists p, Params.__init__ (PSet l) tf ag st en li lfs = Ok p
            /\ tbk p = PStr (join "," l +:+ "/" +:+ tf +:+ "/" +:+ ag)))
  /\ (forall symbols,
        (forall s, symbols <> PStr s) ->
        (forall l, symbols <> PList l) ->
        (forall l, symbols <> PSet l) ->
        Params.__init__ symbols tf ag st en li lfs = raise TypeError).
Proof.
  split.
  - intros t1 t2 H1 H2. split.
    + unfold Params.__init__. cbn - [get_timestamp].
      rewrite H1. cbn - [get_timestamp]. rewrite H2. cbn. eauto.
    + intros l. unfold Params.__init__.
      change (if negb (isiterable (PSet l)) then [PSet l]
              else Params.elements (PSet l))
        with (PStr <$> l).
      rewrite join_symbols_strings. cbn - [join get_timestamp].
      rewrite H1. cbn - [join get_timestamp]. rewrite H2. cbn - [join].
      eauto.
  - intros symbols Hstr Hlist Hset. unfold Params.__init__.
    destruct symbols as [| | |s|l|l|]; try reflexivity.
    + by destruct (Hstr s).
    + by destruct (Hlist l).
    + by destruct (Hset l).
Qed.

End ConstructorEdges.

Lemma init_edge_cases_witness :
  (exists p, @Params.__init__ Examples.python3 (PList []) "1Min" "OHLCV"
               PNone PNone PNone PNone = Ok p
     /\ tbk p = PStr "/1Min/OHLCV")
  /\ (exists p, @Params.__init__ Examples.python3 (PSet ["IBM"; "AAPL"])
                  "1Min" "OHLCV" PNone PNone PNone PNone = Ok p
        /\ tbk p = PStr "IBM,AAPL/1Min/OHLCV")
  /\ @Params.__init__ Examples.python3 PNone "1Min" "OHLCV"
       (PInt 10000000000) PNone PNone PNone = raise TypeError.
Proof.
  destruct (@init_edge_cases Examples.python3 "1Min" "OHLCV" PNone PNone
              PNone PNone) as [Hok _].
  destruct (Hok None None eq_refl eq_refl) as [Hempty Hset].
  destruct (@init_edge_cases Examples.python3 "1Min" "OHLCV" (PInt 10000000000)
              PNone PNone PNone) as [_ Hbad].
  split; [exact Hempty|]. split.
  - exact (Hset ["IBM"; "AAPL"]).
  - apply Hbad; discriminate.
Defined.

(** ** Instants given to the microsecond *)

Section Microseconds.
Context `{!Runtime}.

(** An instant from the epoch on whose sub-second part is at most
    0.999999 s, as every instant given to the microsecond is, converts
    to its whole seconds exactly, under Python 3 as under Python 2:
    only the last microsecond before a second can be rounded up. *)
Theorem epoch_seconds_exact_below_last_microsecond (value : Z) :
  0 <= value < 2 ^ 63 ->
  value mod 10 ^ 9 <= 999999000 ->
  epoch_seconds value = value / 10 ^ 9.
Proof.
  intros Hv Hsub. unfold epoch_seconds, Division.div.
  change (10 ^ 9) with 1000000000 in *.
  destruct PY2; cbn [Division.int]; [reflexivity|].
  unfold Division.truediv. destruct (Z.leb_spec 0 value); [|lia].
  unfold Division.truediv_pos.
  destruct (Z.eqb_spec value 0) as [->|Hne]; [reflexivity|].
  pose proof (quotient_exponent_le value 1000000000) as He.
  change (Z.log2 1000000000) with 29 in He.
  assert (Z.log2 value < 63) as Hlog by (apply Z.log2_lt_pow2; lia).
  set (e := Division.quotient_exponent value 1000000000) in *.
  unfold Division.int_of_float. cbn [Division.mant Division.expo].
  destruct (Z.leb_spec 0 e); [lia|].
  rewrite (Z.max_r 0 (- e)), (Z.max_l 0 e), Z.pow_0_r, Z.mul_1_r by lia.
  assert (2 ^ 19 <= 2 ^ (- e)) as HS by (apply Z.pow_le_mono_r; lia).
  change (2 ^ 19) with 524288 in HS.
  set (S := 2 ^ (- e)) in *.
  pose proof (Z.div_mod value 1000000000 ltac:(lia)) as Hdiv.
  pose proof (Z.mod_pos_bound value 1000000000 ltac:(lia)) as Hmod.
  set (k := value / 1000000000) in *. set (r := value mod 1000000000) in *.
  assert (0 <= k) by (apply Z.div_pos; lia).
  destruct (round_half_even_mono_bounds (value * S) 1000000000
              (k * S) ((k + 1) * S)) as [Hlo _]; [lia | nia | nia |].
  destruct (round_half_even_nearest (value * S) 1000000000) as [Hnear _];
    [nia | lia |].
  set (m := Division.round_half_even (value * S) 1000000000) in *.
  rewrite Z.quot_div_nonneg by nia.
  symmetry. apply Z.div_unique with (m - k * S); [|ring].
  left. split; [lia|].
  assert (m * 1000000000 <= value * S + 500000000) by lia.
  nia.
Qed.

End Microseconds.

Lemma epoch_seconds_exact_below_last_microsecond_witness :
  @epoch_seconds Examples.python3 1577836800999999000
  = 1577836800999999000 / 10 ^ 9.
Proof.
  apply (@epoch_seconds_exact_below_last_microsecond Examples.python3
           1577836800999999000).
  - lia.
  - vm_compute. discriminate.
Defined.
